(** * Log viewer backend: a shallow embedding of [main.go]

    The program serves one WebSocket endpoint.  [wsHandler] checks the request
    path, upgrades the connection, starts a heartbeat goroutine, sends the
    current content of the log file as one text frame, starts a tailer on the
    file and then loops over a [select] on the tailer's [Lines] channel and the
    request context.

    The handler is embedded as a deterministic machine driven by the events
    its environment can deliver (a ticker tick, a value on [Lines], the closing
    of [Lines], the end of the request context).  Every call the handler makes
    to the outside is recorded, in order, in a trace of [Effect]s; outcomes of
    calls the program does not control (does the upgrade succeed, does a write
    fail) are inputs.  Two goroutines run per session: they are the two
    components [main] and [hb] of [Session], and an event list is one
    interleaving of them.  The first tick comes 30 seconds after the
    heartbeat starts: ticks are taken as events of the loop, after the
    handler's start. *)

From Stdlib Require Import List String Ascii ZArith Bool Lia.
Import ListNotations.
Open Scope string_scope.
Open Scope list_scope.

(** ** net/http *)

Record Request := {
  URL_Path : string;
  Header_Origin : option string
}.

Definition StatusNotFound : Z := 404.

(** Go errors are modelled by their message; [None] is the nil error. *)
Definition error := option string.

(** The text a newline escape denotes in a Go string literal. *)
Definition nl : string := String (ascii_of_nat 10) EmptyString.

(** [log.Printf] with string and error verbs: the pieces in order. *)
Definition Sprintf (parts : list string) : string := String.concat "" parts.

(** ** time *)

Module time.
(** [time.Duration] counts nanoseconds. *)
Definition Nanosecond : Z := 1.
Definition Second : Z := (1000000000 * Nanosecond)%Z.
End time.

(** ** github.com/gorilla/websocket *)

Module websocket.

Inductive MessageType :=
| TextMessage | BinaryMessage | CloseMessage | PingMessage | PongMessage.

(** The wire opcodes of the message types. *)
Definition opcode (m : MessageType) : Z :=
  match m with
  | TextMessage => 1
  | BinaryMessage => 2
  | CloseMessage => 8
  | PingMessage => 9
  | PongMessage => 10
  end.

(** Control frames are the opcodes from 8 on; data frames carry content. *)
Definition isControl (m : MessageType) : bool := (8 <=? opcode m)%Z.
Definition isData (m : MessageType) : bool :=
  match m with TextMessage | BinaryMessage => true | _ => false end.

Record Upgrader := {
  ReadBufferSize : Z;
  WriteBufferSize : Z;
  CheckOrigin : Request -> bool
}.

(** [Upgrade]: the handshake outcome [hs] is the environment's; a request
    whose origin the upgrader's [CheckOrigin] refuses is rejected. *)
Definition Upgrade (u : Upgrader) (r : Request) (hs : error) : error :=
  match hs with
  | Some e => Some e
  | None =>
      if CheckOrigin u r then None
      else Some "websocket: request origin not allowed by Upgrader.CheckOrigin"
  end.

Inductive Conn := NoConn | Open | Closed.

(** [WriteMessage] on a connection: [io] is what the connection answers
    when it is open; after [Close] every write fails.  The answers of an open
    connection are not independent of each other: it keeps its first write
    error and gives it to every later write.  That rule is a condition on
    the events a run can meet, [sticky] below. *)
Definition WriteMessage (c : Conn) (io : error) : error :=
  match c with
  | Open => io
  | _ => Some "use of closed network connection"
  end.

End websocket.

(** ** github.com/nxadm/tail: the data [main.go] passes and receives *)

Module tail.

Record SeekInfo := { Offset : Z; Whence : Z }.

(** The fields of [tail.Config] that [main.go] can set; a field absent from
    a Go composite literal has its zero value ([nil], [false]). *)
Record Config := {
  Location : option SeekInfo;
  ReOpen : bool;
  MustExist : bool;
  Poll : bool;
  Follow : bool
}.

Record Line := { Text : string; Err : error }.

End tail.

(** ** main.go *)

(** var upgrader (lines 14-21). *)
Definition upgrader : websocket.Upgrader := {|
  websocket.ReadBufferSize := 1024;
  websocket.WriteBufferSize := 1024;
  websocket.CheckOrigin := fun _ => true
|}.

(** The composite literal given to [tail.TailFile] (lines 70-75). *)
Definition tailConfig : tail.Config := {|
  tail.Location := None;
  tail.ReOpen := true;
  tail.MustExist := false;
  tail.Poll := true;
  tail.Follow := true
|}.

(** The ticker period of the heartbeat goroutine (line 46). *)
Definition heartbeatPeriod : Z := (30 * time.Second)%Z.

(** A ticker of period [d] created at time 0 delivers its [n]-th tick
    (counting from 0) at time [(n + 1) * d]. *)
Definition tickTime (d : Z) (n : nat) : Z := ((Z.of_nat n + 1) * d)%Z.

(** Lines 25-33: the path check.  [Some] is the log file to serve. *)
Definition logFilePathOf (r : Request) : option string :=
  if String.eqb (URL_Path r) "/ws/uwsgi_log"
  then Some "/var/log/uwsgi/uwsgi.log"
  else None.

(** What the handler does to the outside, in order. *)
Inductive Effect :=
| EHttpError (body : string) (status : Z)
| EUpgrade (r : Request) (err : error)
| ELog (msg : string)
| EGoHeartbeat (period : Z)
| EReadFile (path : string)
| EWrite (mt : websocket.MessageType) (payload : string) (err : error)
| ETailFile (path : string) (cfg : tail.Config) (err : error)
| ETailCleanup
| EConnClose
| ETickerStop.

Definition Trace := list Effect.

(** The deferred calls of [wsHandler]. *)
Inductive Deferred := DConnClose | DTailCleanup.

Inductive MainState := Streaming | Returned.
Inductive HeartbeatState := HbNone | HbTicking | HbStopped.

(** The tailer of a session: none was started, one is running, or one is
    running and its [Cleanup] has been called.  [Cleanup] only takes away
    the file watches the package registered for the tailer; it does not stop
    it (that is what [Stop] does, which the program never calls), so after
    [Cleanup] the tailer's goroutine and its open file are still there. *)
Inductive TailState := NoTail | Tailing | CleanedUp.

Definition tailerRunning (t : TailState) : bool :=
  match t with NoTail => false | Tailing | CleanedUp => true end.

(** One request being served: the handler's goroutine ([main], with its
    stack of deferred calls), the heartbeat goroutine ([hb]), the connection
    and the tailer ([tl] records the calls made on it). *)
Record Session := {
  path : string;
  main : MainState;
  defers : list Deferred;
  hb : HeartbeatState;
  conn : websocket.Conn;
  tl : TailState
}.

Definition noSession : Session := {|
  path := ""; main := Returned; defers := []; hb := HbNone;
  conn := websocket.NoConn; tl := NoTail
|}.

(** One deferred call.  [conn.Close] closes the connection.  [t.Cleanup]
    is recorded as called; it leaves the tailer running (see [TailState]). *)
Definition runDeferred (d : Deferred) (s : Session) : Session * Trace :=
  match d with
  | DConnClose =>
      ({| path := path s; main := main s; defers := defers s; hb := hb s;
          conn := websocket.Closed; tl := tl s |}, [EConnClose])
  | DTailCleanup =>
      ({| path := path s; main := main s; defers := defers s; hb := hb s;
          conn := conn s; tl := CleanedUp |}, [ETailCleanup])
  end.

(** Deferred calls run last pushed first: the head of the list is the top of
    the stack. *)
Fixpoint runDefers (ds : list Deferred) (s : Session) : Session * Trace :=
  match ds with
  | [] => (s, [])
  | d :: ds' =>
      let (s1, t1) := runDeferred d s in
      let (s2, t2) := runDefers ds' s1 in
      (s2, t1 ++ t2)
  end.

(** [return] in [wsHandler]: the goroutine ends and its deferred calls run. *)
Definition ret (s : Session) : Session * Trace :=
  runDefers (defers s)
    {| path := path s; main := Returned; defers := []; hb := hb s;
       conn := conn s; tl := tl s |}.

(** What the environment answers during the start of a session. *)
Record StartEnv := {
  upgradeErr : error;
  readFile : string + string;   (* content, or the error of os.ReadFile *)
  initWriteErr : error;
  tailFileErr : error
}.

(** Lines 58-67: the initial content. *)
Definition sendInitial (p : string) (env : StartEnv) : Trace :=
  EReadFile p ::
  match readFile env with
  | inl content =>
      if (0 <? String.length content)%nat then
        let err := websocket.WriteMessage websocket.Open (initWriteErr env) in
        EWrite websocket.TextMessage content err ::
        match err with
        | Some e => [ELog (Sprintf ["Failed to send initial log content "; p; ": "; e])]
        | None => []
        end
      else []
  | inr e => [ELog (Sprintf ["Failed to read initial log content "; p; ": "; e])]
  end.

(** Lines 24-80 of [wsHandler]: everything before the [for] loop, with the
    configuration given to [tail.TailFile] as a parameter. *)
Definition startWith (cfg : tail.Config) (env : StartEnv) (r : Request)
  : Session * Trace :=
  match logFilePathOf r with
  | None => (noSession, [EHttpError "Invalid log path" StatusNotFound])
  | Some p =>
      match websocket.Upgrade upgrader r (upgradeErr env) with
      | Some e =>
          (noSession,
           [EUpgrade r (Some e); ELog (Sprintf ["WebSocket upgrade failed: "; e])])
      | None =>
          let s0 := {| path := p; main := Streaming; defers := [DConnClose];
                       hb := HbTicking; conn := websocket.Open; tl := NoTail |} in
          let t0 := [EUpgrade r None;
                     ELog (Sprintf ["Client connected to "; p; " WebSocket"]);
                     EGoHeartbeat heartbeatPeriod] ++ sendInitial p env in
          match tailFileErr env with
          | Some e =>
              let (s1, t1) := ret s0 in
              (s1, t0 ++ [ETailFile p cfg (Some e);
                          ELog (Sprintf ["Failed to tail log file "; p; ": "; e])]
                      ++ t1)
          | None =>
              ({| path := p; main := Streaming;
                  defers := DTailCleanup :: defers s0;
                  hb := HbTicking; conn := websocket.Open; tl := Tailing |},
               t0 ++ [ETailFile p cfg None])
          end
      end
  end.

(** [wsHandler] passes the literal of lines 70-75. *)
Definition start : StartEnv -> Request -> Session * Trace :=
  startWith tailConfig.

(** What can happen to a session once it is started. *)
Inductive Event :=
| EvTick (io : error)                   (* ticker.C delivers; [io]: the ping write *)
| EvLine (l : tail.Line) (io : error)   (* t.Lines delivers; [io]: the frame write *)
| EvLinesClosed                         (* t.Lines is closed *)
| EvCtxDone.                            (* r.Context().Done() is closed *)

Definition setHb (s : Session) (h : HeartbeatState) : Session :=
  {| path := path s; main := main s; defers := defers s; hb := h;
     conn := conn s; tl := tl s |}.

(** Lines 45-54: one iteration of the heartbeat goroutine. *)
Definition heartbeatStep (s : Session) (io : error) : Session * Trace :=
  match hb s with
  | HbTicking =>
      let err := websocket.WriteMessage (conn s) io in
      match err with
      | Some e =>
          (setHb s HbStopped,
           [EWrite websocket.PingMessage "" err;
            ELog (Sprintf ["Failed to send ping to client "; path s; ": "; e]);
            ETickerStop])
      | None => (s, [EWrite websocket.PingMessage "" err])
      end
  | _ => (s, [])
  end.

(** Lines 85-97: the [t.Lines] case of the [select]. *)
Definition lineStep (s : Session) (l : tail.Line) (io : error) : Session * Trace :=
  let lg := match tail.Err l with
            | Some e => [ELog (Sprintf ["Tail monitoring error for "; path s; ": "; e])]
            | None => []
            end in
  let err := websocket.WriteMessage (conn s) io in
  let w := EWrite websocket.TextMessage (String.append (tail.Text l) nl) err in
  match err with
  | Some e =>
      let (s', t) := ret s in
      (s', lg ++ [w; ELog (Sprintf ["WebSocket write error for "; path s; ": "; e])] ++ t)
  | None => (s, lg ++ [w])
  end.

Definition closedMsg (p : string) : string :=
  Sprintf ["Tail read channel closed, log file might be deleted or encountered serious issue "; p].

Definition doneMsg (p : string) : string :=
  Sprintf ["Client disconnected from "; p; " WebSocket (Context Done)"].

(** Lines 83-102: one event delivered to the session. *)
Definition step (s : Session) (e : Event) : Session * Trace :=
  match e with
  | EvTick io => heartbeatStep s io
  | _ =>
      match main s with
      | Returned => (s, [])
      | Streaming =>
          match e with
          | EvLine l io => lineStep s l io
          | EvLinesClosed =>
              let (s', t) := ret s in (s', ELog (closedMsg (path s)) :: t)
          | EvCtxDone =>
              let (s', t) := ret s in (s', ELog (doneMsg (path s)) :: t)
          | EvTick _ => (s, [])
          end
      end
  end.

Fixpoint run (s : Session) (es : list Event) : Session * Trace :=
  match es with
  | [] => (s, [])
  | e :: es' =>
      let (s1, t1) := step s e in
      let (s2, t2) := run s1 es' in
      (s2, t1 ++ t2)
  end.

(** [wsHandler] on request [r], under start environment [env] and the
    interleaving [es]. *)
Definition wsHandler (env : StartEnv) (r : Request) (es : list Event)
  : Session * Trace :=
  let (s, t) := start env r in
  let (s', t') := run s es in
  (s', t ++ t').

(** The frames that reached the client: the writes that succeeded. *)
Fixpoint frames (t : Trace) : list (websocket.MessageType * string) :=
  match t with
  | [] => []
  | EWrite mt payload None :: t' => (mt, payload) :: frames t'
  | _ :: t' => frames t'
  end.

(** The text frames among them: what the log viewer shows. *)
Definition textFrames (t : Trace) : list string :=
  map snd (filter (fun f => match fst f with
                            | websocket.TextMessage => true
                            | _ => false
                            end) (frames t)).

Definition isUpgrade (e : Effect) : bool :=
  match e with EUpgrade _ _ => true | _ => false end.

(** ** The tailer behind [t.Lines] *)

Module tailer.

(** The file at the log path: [None] while it does not exist. *)
Definition File := option string.

(** What the log-producing side can do to the file. *)
Inductive FsEvent :=
| Append (s : string)     (* bytes appended (the file is created if absent) *)
| Rotate (s : string)     (* replaced at the same path by a new file holding [s] *)
| Truncate                (* truncated in place *)
| Remove.                 (* removed, nothing at the path *)

Definition fsApply (f : File) (e : FsEvent) : File :=
  match e with
  | Append s => Some (match f with Some c => String.append c s | None => s end)
  | Rotate s => Some s
  | Truncate => Some ""
  | Remove => None
  end.

Inductive Out := OutLine (l : tail.Line) | OutClosed.

(** Modelled from the spec: the line reader of the tailer (package
    github.com/nxadm/tail, not under src/), which section 4.3 describes as
    producing newline-delimited lines.  The complete lines of [s]
    (terminator removed) and the unterminated rest; [cur] is the line being
    read. *)
Fixpoint splitLines (s : string) (cur : string) : list string * string :=
  match s with
  | EmptyString => ([], cur)
  | String c s' =>
      if Ascii.eqb c (ascii_of_nat 10) then
        let (ls, rest) := splitLines s' "" in (cur :: ls, rest)
      else splitLines s' (String.append cur (String c ""))
  end.

Definition dropBytes (n : nat) (s : string) : string :=
  String.substring n (String.length s - n) s.

(** Modelled from the spec: what the tailer (not under src/) delivers when
    it reads [s] up to the end of the file under [Follow]: every complete
    line, and then the unterminated rest, if there is one, as a line of its
    own (the package does not wait for the newline). *)
Definition readLines (s : string) : list string :=
  let (ls, rest) := splitLines s "" in
  match rest with
  | EmptyString => ls
  | _ => ls ++ [rest]
  end.

(** Modelled from the spec: reading the file from offset [pos] on (the
    tailer is not under src/): the lines delivered and the new offset, the
    end of the file. *)
Definition readFrom (pos : nat) (c : string) : list string * nat :=
  (readLines (dropBytes pos c), String.length c).

Definition SeekStart : Z := 0.
Definition SeekCurrent : Z := 1.
Definition SeekEnd : Z := 2.

(** Modelled from the spec: where reading starts in a file of [size] bytes
    that was just opened (the tailer is not under src/; the specification
    leaves the offset open and the package documents it: [Location], and the
    beginning of the file without one). *)
Definition seekPos (loc : option tail.SeekInfo) (size : nat) : nat :=
  match loc with
  | None => 0
  | Some l =>
      if (tail.Whence l =? SeekEnd)%Z
      then Z.to_nat (Z.of_nat size + tail.Offset l)
      else Z.to_nat (tail.Offset l)
  end.

Record T := {
  cfg : tail.Config;
  file : File;        (* the file at the path *)
  pos : nat;          (* offset of the next unread byte *)
  closed : bool       (* [Lines] is closed *)
}.

Definition lines (ls : list string) : list Out :=
  map (fun x => OutLine {| tail.Text := x; tail.Err := None |}) ls.

(** Modelled from the spec: the tailer (not under src/) reads what is in
    the file from [p] on and waits, [Lines] open, for more. *)
Definition drain (c : tail.Config) (f : File) (p : nat) : T * list Out :=
  match f with
  | None => ({| cfg := c; file := f; pos := 0; closed := false |}, [])
  | Some content =>
      let (ls, p') := readFrom p content in
      ({| cfg := c; file := f; pos := p'; closed := false |}, lines ls)
  end.

(** [MustExist]: [TailFile] fails early when the file does not exist. *)
Definition openErr (c : tail.Config) (f : File) : error :=
  match f with
  | None => if tail.MustExist c
            then Some "no such file or directory" else None
  | Some _ => None
  end.

Definition stop (c : tail.Config) (f : File) (p : nat) : T * list Out :=
  ({| cfg := c; file := f; pos := p; closed := true |}, [OutClosed]).

(** Modelled from the spec: the tailer is the package github.com/nxadm/tail,
    which is not under src/; only its configuration and the consumer of its
    channel are.  Follow, rotation tolerance and non-existence tolerance are
    those of section 4.3 of the specification, selected by the fields the
    package documents for them ([Follow]: keep looking for new lines,
    [ReOpen]: reopen recreated files, [MustExist]: fail early if the file
    does not exist).  The starting offset, which the specification leaves
    open, is the package's documented one: [Location], and the beginning of
    the file when [Location] is nil.  [TailFile] on file [f]: *)
Definition TailFile (c : tail.Config) (f : File) : T * list Out :=
  let start := match f with
               | Some content => seekPos (tail.Location c) (String.length content)
               | None => 0
               end in
  let (t, out) := drain c f start in
  if tail.Follow c then (t, out)
  else ({| cfg := c; file := f; pos := pos t; closed := true |},
        out ++ [OutClosed]).

(** Modelled from the spec: the tailer's reaction to a change of the file
    (section 4.3; the package is not under src/).  Appended bytes are read
    from the current offset; a truncated file is read again from its start;
    a replaced or removed file is reopened (and waited for) when [ReOpen]
    is set, and ends the tailer, closing [Lines], when it is not. *)
Definition react (t : T) (e : FsEvent) : T * list Out :=
  let f' := fsApply (file t) e in
  if closed t
  then ({| cfg := cfg t; file := f'; pos := pos t; closed := true |}, [])
  else
    match e with
    | Append _ => drain (cfg t) f' (pos t)
    | Truncate => drain (cfg t) f' 0
    | Rotate _ | Remove =>
        if tail.ReOpen (cfg t) then drain (cfg t) f' 0
        else stop (cfg t) f' (pos t)
    end.

Fixpoint reacts (t : T) (es : list FsEvent) : T * list Out :=
  match es with
  | [] => (t, [])
  | e :: es' =>
      let (t1, o1) := react t e in
      let (t2, o2) := reacts t1 es' in
      (t2, o1 ++ o2)
  end.

End tailer.

(** What the tailer puts on [Lines] as events of the session; [io] is the
    outcome of the write of each line. *)
Definition deliver (io : error) (o : tailer.Out) : Event :=
  match o with
  | tailer.OutLine l => EvLine l io
  | tailer.OutClosed => EvLinesClosed
  end.

(** What [os.ReadFile] answers on file [f]. *)
Definition ReadFile (p : string) (f : tailer.File) : string + string :=
  match f with
  | Some content => inl content
  | None => inr (Sprintf ["open "; p; ": no such file or directory"])
  end.

(** A session on a healthy connection against a file: the request is
    upgraded, every write succeeds, the file is [f] when the client connects
    and then changes by [fs]; the tailer is configured by [cfg]. *)
Definition serveWith (cfg : tail.Config) (r : Request) (f : tailer.File)
    (fs : list tailer.FsEvent) : Session * Trace :=
  let env := {| upgradeErr := None;
                readFile := ReadFile "/var/log/uwsgi/uwsgi.log" f;
                initWriteErr := None; tailFileErr := tailer.openErr cfg f |} in
  let (s0, t0) := startWith cfg env r in
  let (tl0, o0) := tailer.TailFile cfg f in
  let (_, o1) := tailer.reacts tl0 fs in
  let (s1, t1) := run s0 (map (deliver None) (o0 ++ o1)) in
  (s1, t0 ++ t1).

Definition serve : Request -> tailer.File -> list tailer.FsEvent -> Session * Trace :=
  serveWith tailConfig.

(** The request of a log viewer. *)
Definition logRequest : Request :=
  {| URL_Path := "/ws/uwsgi_log"; Header_Origin := None |}.

(** A session that reached the [for] loop and has not left it. *)
Definition streaming (s : Session) : Prop :=
  main s = Streaming /\ defers s = [DTailCleanup; DConnClose] /\
  conn s = websocket.Open /\ tl s = Tailing /\ hb s <> HbNone.

(** A session whose handler has returned: its deferred calls have run, so
    the connection, if there was one, is closed, and [Cleanup] has been
    called on the tailer, if one was started. *)
Definition returned (s : Session) : Prop :=
  main s = Returned /\ defers s = [] /\
  conn s <> websocket.Open /\ tl s <> Tailing.

(** Every session is in one of the two. *)
Definition inv (s : Session) : Prop := streaming s \/ returned s.

(** An environment in which nothing fails and the file holds [content]. *)
Definition healthy (content : string) : StartEnv :=
  {| upgradeErr := None; readFile := inl content;
     initWriteErr := None; tailFileErr := None |}.

(** The frame a line is sent as (line 94). *)
Definition lineFrame (text : string) : string := String.append text nl.

(** The file of the scenario, and what is appended to it. *)
Definition twoLines : string := Sprintf ["line1"; nl; "line2"; nl].
Definition thirdLine : string := Sprintf ["line3"; nl].

(** The configuration of [main.go] with the one more field that makes the
    tailer start at the end of the file. *)
Definition tailConfigFromEnd : tail.Config := {|
  tail.Location := Some {| tail.Offset := 0; tail.Whence := tailer.SeekEnd |};
  tail.ReOpen := true;
  tail.MustExist := false;
  tail.Poll := true;
  tail.Follow := true
|}.

(** The configuration of [main.go] without [ReOpen]. *)
Definition tailConfigNoReOpen : tail.Config := {|
  tail.Location := None;
  tail.ReOpen := false;
  tail.MustExist := false;
  tail.Poll := true;
  tail.Follow := true
|}.

Definition isLine (o : tailer.Out) : Prop :=
  match o with tailer.OutLine _ => True | tailer.OutClosed => False end.

(** The session of a viewer that connected while the file held the two
    lines, as it enters the loop. *)
Definition liveSession : Session := fst (start (healthy twoLines) logRequest).

(** ** net/http: responses and the request multiplexer *)

Module http.

Definition StatusOK : Z := 200.

Record Response := { Status : Z; Body : string }.

(** [http.Error] writes the message and a newline under the given status;
    [http.NotFound] is [Error] with the standard text. *)
Definition Error (msg : string) (code : Z) : Response :=
  {| Status := code; Body := String.append msg nl |}.

Definition NotFound : Response := Error "404 page not found" StatusNotFound.

Definition StatusBadRequest : Z := 400.
Definition StatusMovedPermanently : Z := 301.

(** The elements of a path: the texts between its slashes; [cur] is the
    element being read. *)
Fixpoint elements (p : string) (cur : string) : list string :=
  match p with
  | EmptyString => [cur]
  | String c p' =>
      if Ascii.eqb c "/" then cur :: elements p' ""
      else elements p' (String.append cur (String c ""))
  end.

(** [path.Clean] on the elements of a rooted path: empty elements and "."
    go, ".." goes with the element before it, or alone at the root.  [kept]
    holds the elements kept so far, last first. *)
Fixpoint cleanElements (els : list string) (kept : list string) : list string :=
  match els with
  | [] => rev kept
  | e :: els' =>
      if String.eqb e "" || String.eqb e "." then cleanElements els' kept
      else if String.eqb e ".." then cleanElements els' (List.tl kept)
      else cleanElements els' (e :: kept)
  end.

Definition Clean (p : string) : string :=
  String.append "/" (String.concat "/" (cleanElements (elements p "") [])).

Fixpoint endsInSlash (p : string) : bool :=
  match p with
  | EmptyString => false
  | String c EmptyString => Ascii.eqb c "/"
  | String _ p' => endsInSlash p'
  end.

(** [cleanPath]: the canonical form of a request path: rooted, cleaned by
    [path.Clean], with the trailing slash of the original put back. *)
Definition cleanPath (p : string) : string :=
  match p with
  | EmptyString => "/"
  | String c _ =>
      let p1 := if Ascii.eqb c "/" then p else String.append "/" p in
      let np := Clean p1 in
      if endsInSlash p1 && negb (String.eqb np "/")
      then String.append np "/" else np
  end.

Section Mux.

Variable H : Type.

Record muxEntry := { pattern : string; h : H }.

(** [ServeMux]: [m] maps a pattern to its entry, [es] holds the entries whose
    pattern ends in a slash, longest pattern first. *)
Record ServeMux := { m : list muxEntry; es : list muxEntry }.

Definition NewServeMux : ServeMux := {| m := []; es := [] |}.

Fixpoint lookup (l : list muxEntry) (p : string) : option muxEntry :=
  match l with
  | [] => None
  | e :: l' => if String.eqb (pattern e) p then Some e else lookup l' p
  end.

(** The entry is inserted before the first one with a shorter pattern. *)
Fixpoint appendSorted (l : list muxEntry) (e : muxEntry) : list muxEntry :=
  match l with
  | [] => [e]
  | x :: l' =>
      if (String.length (pattern x) <? String.length (pattern e))%nat
      then e :: x :: l'
      else x :: appendSorted l' e
  end.

(** [Handle] panics ([None]) on an empty pattern and on a pattern that is
    registered already. *)
Definition Handle (mux : ServeMux) (p : string) (handler : H) : option ServeMux :=
  if String.eqb p "" then None
  else match lookup (m mux) p with
       | Some _ => None
       | None =>
           let e := {| pattern := p; h := handler |} in
           Some {| m := e :: m mux;
                   es := if endsInSlash p then appendSorted (es mux) e
                         else es mux |}
       end.

Fixpoint longest (l : list muxEntry) (p : string) : option H :=
  match l with
  | [] => None
  | e :: l' => if String.prefix (pattern e) p then Some (h e) else longest l' p
  end.

(** [mux.match]: the handler of a path already in canonical form: an exact
    match first, then the longest registered subtree the path lies in. *)
Definition matchPath (mux : ServeMux) (p : string) : option H :=
  match lookup (m mux) p with
  | Some e => Some (h e)
  | None => longest (es mux) p
  end.

(** A path that is not registered while the same path with a slash added
    is: the request is redirected to the subtree. *)
Definition shouldRedirect (mux : ServeMux) (p : string) : bool :=
  match lookup (m mux) p with
  | Some _ => false
  | None =>
      match p with
      | EmptyString => false
      | _ => match lookup (m mux) (String.append p "/") with
             | Some _ => negb (endsInSlash p)
             | None => false
             end
      end
  end.

(** What the multiplexer decides for a request. *)
Inductive Route :=
| Found (handler : H)
| Missing
| MovedTo (target : string).

Definition handlerOf (mux : ServeMux) (p : string) : Route :=
  match matchPath mux p with
  | Some x => Found x
  | None => Missing
  end.

(** [mux.Handler]: a CONNECT request is matched on its path as it is; the
    path of any other request is first brought to canonical form, and a
    request whose path was not canonical is redirected to the canonical
    one instead of being handled. *)
Definition route (mux : ServeMux) (connect : bool) (p : string) : Route :=
  if connect then
    if shouldRedirect mux p then MovedTo (String.append p "/")
    else handlerOf mux p
  else
    let cp := cleanPath p in
    if shouldRedirect mux cp then MovedTo (String.append cp "/")
    else if negb (String.eqb cp p) then MovedTo cp
    else handlerOf mux p.

End Mux.

End http.

(** The two handlers [main] registers (lines 107 and 110). *)
Inductive Handler := HwsHandler | HRoot.

Definition rootBody : string :=
  "Log viewer backend is running. Connect to /ws/uwsgi_log via WebSocket for logs.".

(** Lines 110-118: the handler of the pattern "/". *)
Definition rootHandler (r : Request) : http.Response :=
  if negb (String.eqb (URL_Path r) "/") then http.NotFound
  else {| http.Status := http.StatusOK; http.Body := rootBody |}.

(** Lines 107-118: the registrations of [main] on the default multiplexer. *)
Definition registrations : option (http.ServeMux Handler) :=
  match http.Handle Handler (http.NewServeMux Handler) "/ws/uwsgi_log" HwsHandler with
  | Some mux => http.Handle Handler mux "/" HRoot
  | None => None
  end.

(** What a request is answered with: a plain response, a permanent
    redirect (status 301) to another path, or a run of [wsHandler]. *)
Inductive Served :=
| Plain (resp : http.Response)
| Redirect (target : string)
| ByWsHandler (result : Session * Trace).

(** [mux.ServeHTTP] on a request of the given method: the request for "*"
    is a bad request; any other goes where [route] says. *)
Definition ServeHTTP (mux : http.ServeMux Handler) (method : string)
    (env : StartEnv) (r : Request) (es : list Event) : Served :=
  if String.eqb (URL_Path r) "*"
  then Plain {| http.Status := http.StatusBadRequest; http.Body := "" |}
  else
    match http.route Handler mux (String.eqb method "CONNECT") (URL_Path r) with
    | http.Found _ HwsHandler => ByWsHandler (wsHandler env r es)
    | http.Found _ HRoot => Plain (rootHandler r)
    | http.Missing _ => Plain http.NotFound
    | http.MovedTo _ target => Redirect target
    end.

(** The server [main] starts, on one request; [None] if a registration
    panicked. *)
Definition server (method : string) (env : StartEnv) (r : Request)
    (es : list Event) : option Served :=
  match registrations with
  | Some mux => Some (ServeHTTP mux method env r es)
  | None => None
  end.

(** The multiplexer after the two registrations of [main]. *)
Definition mainMux : http.ServeMux Handler := {|
  http.m := [{| http.pattern := "/"; http.h := HRoot |};
             {| http.pattern := "/ws/uwsgi_log"; http.h := HwsHandler |}];
  http.es := [{| http.pattern := "/"; http.h := HRoot |}]
|}.

(** What the three ways of [main] answer a path with, once the multiplexer
    has let the request through. *)
Definition answer (env : StartEnv) (r : Request) (es : list Event) : Served :=
  if String.eqb (URL_Path r) "/ws/uwsgi_log"
  then ByWsHandler (wsHandler env r es)
  else if String.eqb (URL_Path r) "/"
       then Plain {| http.Status := http.StatusOK; http.Body := rootBody |}
       else Plain http.NotFound.

(** ** Counting what a trace holds *)

Definition isConnClose (e : Effect) : bool :=
  match e with EConnClose => true | _ => false end.

Definition isTailCleanup (e : Effect) : bool :=
  match e with ETailCleanup => true | _ => false end.

Definition isWrite (e : Effect) : bool :=
  match e with EWrite _ _ _ => true | _ => false end.

Definition count (f : Effect -> bool) (t : Trace) : nat :=
  List.length (filter f t).

Definition isHttpError (e : Effect) : bool :=
  match e with EHttpError _ _ => true | _ => false end.

Definition closedN (c : websocket.Conn) : nat :=
  match c with websocket.Closed => 1 | _ => 0 end.

Definition cleanedN (t : TailState) : nat :=
  match t with CleanedUp => 1 | _ => 0 end.

(** A write the program can make: a text frame, or a ping without payload. *)
Definition knownWrite (e : Effect) : Prop :=
  match e with
  | EWrite mt payload _ =>
      mt = websocket.TextMessage \/
      (mt = websocket.PingMessage /\ payload = "")
  | _ => True
  end.

(** The events of an undisturbed stretch of the loop: ticks, whatever their
    write does, and lines whose write succeeds. *)
Definition quiet (e : Event) : Prop :=
  match e with
  | EvTick _ => True
  | EvLine _ None => True
  | _ => False
  end.

(** The write outcomes one connection can give: it keeps its first write
    error and answers every later write with it, so no write succeeds after
    a failed one.  [failed] tells whether a write has failed already. *)
Fixpoint sticky (failed : bool) (es : list Event) : Prop :=
  match es with
  | [] => True
  | EvTick io :: es' =>
      match io with
      | None => failed = false /\ sticky false es'
      | Some _ => sticky true es'
      end
  | EvLine _ io :: es' =>
      match io with
      | None => failed = false /\ sticky false es'
      | Some _ => sticky true es'
      end
  | _ :: es' => sticky failed es'
  end.

(** Whether the write of the initial content was made and failed. *)
Definition initFailed (env : StartEnv) : bool :=
  match readFile env, initWriteErr env with
  | inl (String _ _), Some _ => true
  | _, _ => false
  end.

(** The bytes of the file at the path; none while it does not exist. *)
Definition contentOf (f : tailer.File) : string :=
  match f with Some c => c | None => "" end.

(** A text made of whole lines: nothing after its last newline. *)
Definition wholeLines (a : string) : Prop := snd (tailer.splitLines a "") = "".

(** The text frame an event stands for. *)
Definition textOf (e : Event) : list string :=
  match e with
  | EvLine l _ => [lineFrame (tail.Text l)]
  | _ => []
  end.

(** The events that make a streaming session return. *)
Definition closing (e : Event) : Prop :=
  match e with
  | EvTick _ => False
  | EvLine _ io => io <> None
  | EvLinesClosed => True
  | EvCtxDone => True
  end.

(** The cause logged when an event ends the loop. *)
Definition exitMsg (p : string) (e : Event) : string :=
  match e with
  | EvLine _ (Some w) => Sprintf ["WebSocket write error for "; p; ": "; w]
  | EvLinesClosed => closedMsg p
  | EvCtxDone => doneMsg p
  | _ => ""
  end.

(** * Theorems *)

(** C10: the upgrader's origin check accepts every request, whatever its
    Origin header: [CheckOrigin] returns true, and [Upgrade] never rejects a
    request for its origin (its outcome is the handshake's). *)
Theorem C10_check_origin_accepts_all :
  forall r : Request,
    websocket.CheckOrigin upgrader r = true /\
    forall hs, websocket.Upgrade upgrader r hs = hs.
Proof.
  intro r; split; [reflexivity|].
  intros [e|]; reflexivity.
Qed.

(** C4: a request whose path is not /ws/uwsgi_log is answered with status
    404 and nothing else happens: under every environment and every later
    event the trace is that one response, no upgrade is attempted and there
    is no session (no connection, no heartbeat, no tailer). *)
Theorem C4_wrong_path_not_found :
  forall env r es,
    URL_Path r <> "/ws/uwsgi_log" ->
    wsHandler env r es =
      (noSession, [EHttpError "Invalid log path" StatusNotFound]) /\
    existsb isUpgrade (snd (wsHandler env r es)) = false.
Proof.
  intros env r es Hp.
  assert (Hs : start env r =
               (noSession, [EHttpError "Invalid log path" StatusNotFound])).
  { unfold start, startWith, logFilePathOf.
    destruct (String.eqb_spec (URL_Path r) "/ws/uwsgi_log") as [E|_];
      [contradiction|reflexivity]. }
  assert (Hr : forall es', run noSession es' = (noSession, [])).
  { induction es' as [|e es' IH]; [reflexivity|].
    simpl. destruct e; simpl; rewrite IH; reflexivity. }
  unfold wsHandler. rewrite Hs, Hr. split; reflexivity.
Qed.

(** ** Traces and runs *)

Lemma frames_app (t1 t2 : Trace) : frames (t1 ++ t2) = frames t1 ++ frames t2.
Proof.
  induction t1 as [|e t1 IH]; [reflexivity|].
  destruct e; simpl; try exact IH.
  destruct err; simpl; [exact IH | now rewrite IH].
Qed.

Lemma run_app (s : Session) (es1 es2 : list Event) :
  run s (es1 ++ es2) =
  (fst (run (fst (run s es1)) es2),
   snd (run s es1) ++ snd (run (fst (run s es1)) es2)).
Proof.
  revert s; induction es1 as [|e es1 IH]; intro s; simpl.
  - destruct (run s es2); reflexivity.
  - destruct (step s e) as [s1 t1]. rewrite IH.
    destruct (run s1 es1) as [s2 t2]; simpl.
    now rewrite app_assoc.
Qed.

Lemma run_cons (s : Session) (e : Event) (es : list Event) :
  run s (e :: es) =
  (fst (run (fst (step s e)) es),
   snd (step s e) ++ snd (run (fst (step s e)) es)).
Proof.
  simpl. destruct (step s e) as [s1 t1]. simpl.
  destruct (run s1 es); reflexivity.
Qed.

(** Leaving the loop runs both deferred calls: the tailer's cleanup, then
    the closing of the connection. *)
Lemma ret_streaming (s : Session) :
  streaming s ->
  ret s = ({| path := path s; main := Returned; defers := []; hb := hb s;
              conn := websocket.Closed; tl := CleanedUp |},
           [ETailCleanup; EConnClose]).
Proof.
  intros (_ & Hd & _). unfold ret. rewrite Hd. reflexivity.
Qed.

Lemma ret_returned (s : Session) : streaming s -> returned (fst (ret s)).
Proof.
  intro H. rewrite (ret_streaming s H). repeat split; simpl; discriminate.
Qed.

(** ** The invariant of a session *)

Lemma startWith_inv cfg env r : inv (fst (startWith cfg env r)).
Proof.
  unfold startWith.
  destruct (logFilePathOf r) as [p|];
    [|right; repeat split; simpl; discriminate].
  destruct (websocket.Upgrade upgrader r (upgradeErr env));
    [right; repeat split; simpl; discriminate|].
  destruct (tailFileErr env); simpl.
  - right; repeat split; simpl; discriminate.
  - left; repeat split; simpl; discriminate.
Qed.

Lemma heartbeatStep_keeps (s : Session) (io : error) :
  let s' := fst (heartbeatStep s io) in
  path s' = path s /\ main s' = main s /\ defers s' = defers s /\
  conn s' = conn s /\ tl s' = tl s /\ (hb s <> HbNone -> hb s' <> HbNone).
Proof.
  unfold heartbeatStep.
  destruct (hb s) eqn:Hh; simpl; rewrite ?Hh; try (repeat split; auto; fail).
  destruct (websocket.WriteMessage (conn s) io); simpl; rewrite ?Hh;
    repeat split; auto; intros _; discriminate.
Qed.

Lemma step_inv (s : Session) (e : Event) : inv s -> inv (fst (step s e)).
Proof.
  intros Hi.
  destruct e as [io|l io| |]; simpl.
  - pose proof (heartbeatStep_keeps s io) as (Hp & Hm & Hd & Hc & Ht & Hh).
    destruct Hi as [(A & B & C & D & E)|(A & B & C & D)]; [left|right];
      unfold streaming, returned;
      rewrite ?Hm, ?Hd, ?Hc, ?Ht; repeat split; auto.
  - destruct Hi as [Hs|Hr].
    + destruct Hs as (A & B & C & D & E).
      rewrite A. unfold lineStep.
      destruct (websocket.WriteMessage (conn s) io).
      * pose proof (ret_returned s (conj A (conj B (conj C (conj D E))))) as R.
        destruct (ret s); right; exact R.
      * left; simpl; repeat split; auto.
    + destruct Hr as (A & B & C & D). rewrite A. right; repeat split; auto.
  - destruct Hi as [Hs|Hr].
    + pose proof (ret_returned s Hs) as R. destruct Hs as (A & _). rewrite A.
      destruct (ret s); right; exact R.
    + destruct Hr as (A & B & C & D). rewrite A. right; repeat split; auto.
  - destruct Hi as [Hs|Hr].
    + pose proof (ret_returned s Hs) as R. destruct Hs as (A & _). rewrite A.
      destruct (ret s); right; exact R.
    + destruct Hr as (A & B & C & D). rewrite A. right; repeat split; auto.
Qed.

Lemma run_inv (es : list Event) : forall s, inv s -> inv (fst (run s es)).
Proof.
  induction es as [|e es IH]; intros s Hi; simpl; [exact Hi|].
  pose proof (step_inv s e Hi) as H1.
  destruct (step s e) as [s1 t1]. specialize (IH s1 H1).
  destruct (run s1 es); exact IH.
Qed.

Lemma wsHandler_inv env r es : inv (fst (wsHandler env r es)).
Proof.
  unfold wsHandler, start.
  pose proof (startWith_inv tailConfig env r) as H0.
  destruct (startWith tailConfig env r) as [s t].
  pose proof (run_inv es s H0) as H1.
  destruct (run s es); exact H1.
Qed.

(** Once the handler has returned nothing reaches the client any more: the
    only writer left is the heartbeat, and it writes to a closed connection. *)
Lemma returned_step (s : Session) (e : Event) :
  returned s -> returned (fst (step s e)) /\ frames (snd (step s e)) = [].
Proof.
  intros (A & B & C & D).
  destruct e as [io|l io| |]; simpl; try (rewrite A; repeat split; auto; fail).
  unfold heartbeatStep.
  destruct (hb s); simpl; try (repeat split; auto; fail).
  destruct (conn s) eqn:Hc; simpl; try congruence;
    unfold returned; simpl; rewrite Hc; repeat split; auto.
Qed.

Lemma returned_run (es : list Event) :
  forall s, returned s ->
    returned (fst (run s es)) /\ frames (snd (run s es)) = [].
Proof.
  induction es as [|e es IH]; intros s Hr; simpl; [split; auto|].
  destruct (returned_step s e Hr) as [H1 H2].
  destruct (step s e) as [s1 t1]; simpl in *.
  destruct (IH s1 H1) as [H3 H4].
  destruct (run s1 es) as [s2 t2]; simpl in *.
  split; [exact H3|]. now rewrite frames_app, H2, H4.
Qed.

(** ** Heartbeat *)

(** C2 (as stated, refuted): a failed ping write leaves the session in the
    loop, holding its connection and its tailer; only the heartbeat stops. *)
Lemma C2_failed_ping_session_stays_open :
  let s := fst (wsHandler (healthy twoLines) logRequest
                  [EvTick (Some "write: broken pipe")]) in
  main s = Streaming /\ conn s = websocket.Open /\ tl s = Tailing /\
  hb s = HbStopped.
Proof. vm_compute. repeat split. Qed.


Lemma liveSession_streaming : streaming liveSession.
Proof. unfold streaming. vm_compute. repeat split; discriminate. Qed.


(** ** Cancellation *)

(** C3 (as stated, refuted): after the request context ends the handler has
    returned, yet the heartbeat goroutine is still ticking. *)
Lemma C3_heartbeat_outlives_cancellation :
  let s := fst (wsHandler (healthy twoLines) logRequest [EvCtxDone]) in
  main s = Returned /\ hb s = HbTicking.
Proof. vm_compute. split; reflexivity. Qed.


(** ** Heartbeat cadence and frame type *)

Lemma ticks_ok (s : Session) (n : nat) :
  conn s = websocket.Open -> hb s = HbTicking ->
  run s (repeat (EvTick None) n) =
  (s, repeat (EWrite websocket.PingMessage "" None) n).
Proof.
  intros Hc Hh. induction n as [|n IH]; [reflexivity|].
  cbn [repeat]. rewrite run_cons.
  assert (E : step s (EvTick None) = (s, [EWrite websocket.PingMessage "" None])).
  { simpl. unfold heartbeatStep. rewrite Hh, Hc. reflexivity. }
  rewrite E. cbn [fst snd]. rewrite IH. reflexivity.
Qed.

Lemma ticks_keep (ios : list error) :
  forall s,
    let s' := fst (run s (map EvTick ios)) in
    main s' = main s /\ conn s' = conn s /\ tl s' = tl s.
Proof.
  induction ios as [|io ios IH]; intro s; [repeat split|].
  cbn [map]. rewrite run_cons. cbn [fst].
  destruct (IH (fst (step s (EvTick io)))) as (A & B & C).
  destruct (heartbeatStep_keeps s io) as (_ & Hm & _ & Hc & Ht & _).
  simpl in A, B, C |- *.
  rewrite A, B, C. auto.
Qed.

(** C8 (as stated, refuted): three pings that get no reply and then a ping
    whose write fails: the write error does not close the session either; it
    is still in the loop with its connection and its tailer. *)
Lemma C8_ping_write_error_does_not_close :
  let s := fst (wsHandler (healthy twoLines) logRequest
                  [EvTick None; EvTick None; EvTick None;
                   EvTick (Some "write: connection reset by peer")]) in
  main s = Streaming /\ conn s = websocket.Open /\ tl s = Tailing.
Proof. vm_compute. repeat split. Qed.

(** C8 (amended): the heartbeat ticker has a fixed period of 30 seconds;
    what the heartbeat writes is a ping control frame with an empty payload,
    never a text frame; no reply is waited for, so any number of pings whose
    write succeeds leaves the session as it is; and no outcome of a ping
    write closes the session: a write error only ends the heartbeat. *)
Theorem C8_heartbeat_is_a_ping_every_30s :
  (heartbeatPeriod = 30 * 1000000000)%Z /\
  (forall n, tickTime heartbeatPeriod (S n) - tickTime heartbeatPeriod n
             = 30 * time.Second)%Z /\
  (forall env, In (EGoHeartbeat heartbeatPeriod) (snd (start env logRequest))
               \/ upgradeErr env <> None) /\
  (forall s io,
     textFrames (snd (heartbeatStep s io)) = [] /\
     forall mt payload err,
       In (EWrite mt payload err) (snd (heartbeatStep s io)) ->
       mt = websocket.PingMessage /\ payload = "" /\
       websocket.isControl mt = true /\ websocket.isData mt = false) /\
  (forall s n,
     streaming s -> hb s = HbTicking ->
     run s (repeat (EvTick None) n) =
     (s, repeat (EWrite websocket.PingMessage "" None) n)) /\
  (forall s ios,
     let s' := fst (run s (map EvTick ios)) in
     main s' = main s /\ conn s' = conn s /\ tl s' = tl s).
Proof.
  split; [reflexivity|].
  split; [intro n; unfold tickTime, heartbeatPeriod, time.Second, time.Nanosecond; lia|].
  split.
  { intro env. unfold start, startWith. simpl.
    destruct (upgradeErr env) as [e|]; [right; discriminate|left].
    simpl. destruct (tailFileErr env); simpl; auto. }
  split.
  { intros s io. unfold heartbeatStep.
    destruct (hb s); simpl; try (split; [reflexivity|intros ? ? ? []]).
    destruct (websocket.WriteMessage (conn s) io); simpl.
    - split; [reflexivity|].
      intros mt p err [H|[H|[H|[]]]]; inversion H; subst; repeat split.
    - split; [reflexivity|].
      intros mt p err [H|[]]; inversion H; subst; repeat split. }
  split.
  { intros s n (_ & _ & Hc & _) Hh. apply ticks_ok; assumption. }
  intros s ios. apply ticks_keep.
Qed.

(** ** Errors carried by a line *)

(** C6: a line of the tailer that carries an error is handled as the same
    line without the error, after the error is logged: when the write
    succeeds the session is unchanged, still in the loop, and the line's text
    is the frame written. *)
Theorem C6_line_error_is_logged_and_line_sent :
  forall s text e io,
    streaming s ->
    let l := {| tail.Text := text; tail.Err := Some e |} in
    let l0 := {| tail.Text := text; tail.Err := None |} in
    let lg := ELog (Sprintf ["Tail monitoring error for "; path s; ": "; e]) in
    step s (EvLine l io) =
      (fst (step s (EvLine l0 io)), lg :: snd (step s (EvLine l0 io))) /\
    step s (EvLine l None) =
      (s, [lg; EWrite websocket.TextMessage (lineFrame text) None]) /\
    frames (snd (step s (EvLine l None))) =
      [(websocket.TextMessage, lineFrame text)].
Proof.
  intros s text e io (A & B & C & D & E). simpl.
  rewrite A. unfold lineStep. simpl. rewrite C. simpl.
  split; [|split; reflexivity].
  destruct io as [w|]; [|reflexivity].
  destruct (ret s); reflexivity.
Qed.

Lemma C6_line_error_witness :
  step liveSession
    (EvLine {| tail.Text := "line3"; tail.Err := Some "read: interrupted" |} None)
  = (liveSession,
     [ELog "Tail monitoring error for /var/log/uwsgi/uwsgi.log: read: interrupted";
      EWrite websocket.TextMessage thirdLine None]).
Proof.
  exact (proj1 (proj2 (C6_line_error_is_logged_and_line_sent liveSession
                         "line3" "read: interrupted" None
                         liveSession_streaming))).
Defined.

(** ** The start of a session *)

(** C5: when reading the file fails, or writing its content as the first
    frame fails, the failure is logged and the handler goes on: it calls
    [tail.TailFile] with the configuration of the program, and provided that
    call succeeds the session is in the loop, with its connection open and
    its tailer running. *)
Theorem C5_initial_content_failure_is_not_fatal :
  forall env r p e,
    logFilePathOf r = Some p ->
    upgradeErr env = None ->
    readFile env = inr e \/
    (exists c, readFile env = inl c /\ c <> "" /\ initWriteErr env = Some e) ->
    let s := fst (start env r) in
    let t := snd (start env r) in
    (readFile env = inr e ->
     In (ELog (Sprintf ["Failed to read initial log content "; p; ": "; e])) t) /\
    (forall c, readFile env = inl c ->
     In (EWrite websocket.TextMessage c (Some e)) t /\
     In (ELog (Sprintf ["Failed to send initial log content "; p; ": "; e])) t) /\
    In (ETailFile p tailConfig (tailFileErr env)) t /\
    (tailFileErr env = None ->
     streaming s /\
     s = {| path := p; main := Streaming;
            defers := [DTailCleanup; DConnClose]; hb := HbTicking;
            conn := websocket.Open; tl := Tailing |}).
Proof.
  intros env r p e Hp Hu Hf s t. subst s t.
  unfold start, startWith. rewrite Hp, Hu.
  assert (Hup : websocket.Upgrade upgrader r None = None) by reflexivity.
  rewrite Hup. clear Hup.
  assert (Hin : forall x,
            (readFile env = inr e ->
             x = ELog (Sprintf ["Failed to read initial log content "; p; ": "; e]) ->
             In x (sendInitial p env)) /\
            (forall c, readFile env = inl c ->
             x = EWrite websocket.TextMessage c (Some e) \/
             x = ELog (Sprintf ["Failed to send initial log content "; p; ": "; e]) ->
             In x (sendInitial p env))).
  { intro x. unfold sendInitial. split.
    - intros Hr ->. rewrite Hr. simpl; auto.
    - intros c Hr Hx. rewrite Hr.
      destruct Hf as [Hf|(c' & Hc' & Hne & Hw)]; [congruence|].
      assert (c' = c) by congruence. subst c'.
      destruct c as [|a c]; [congruence|]. simpl. rewrite Hw. simpl.
      destruct Hx as [->| ->]; auto. }
  destruct (tailFileErr env) as [te|] eqn:Ht.
  - destruct (ret _) as [s1 t1] eqn:Hr. cbn [fst snd].
    split; [|split; [|split]].
    + intro Hr'. apply in_or_app. left. apply in_or_app. right.
      apply (proj1 (Hin _) Hr' eq_refl).
    + intros c Hc. split; apply in_or_app; left; apply in_or_app; right;
        apply (proj2 (Hin _) c Hc); auto.
    + apply in_or_app. right. simpl; auto.
    + discriminate.
  - cbn [fst snd].
    split; [|split; [|split]].
    + intro Hr'. apply in_or_app. left. apply in_or_app. right.
      apply (proj1 (Hin _) Hr' eq_refl).
    + intros c Hc. split; apply in_or_app; left; apply in_or_app; right;
        apply (proj2 (Hin _) c Hc); auto.
    + apply in_or_app. right. simpl; auto.
    + intros _. split; [|reflexivity].
      unfold streaming; simpl. repeat split; discriminate.
Qed.

Lemma C5_initial_content_failure_witness :
  let env := {| upgradeErr := None;
                readFile := inr "open /var/log/uwsgi/uwsgi.log: permission denied";
                initWriteErr := None; tailFileErr := None |} in
  In (ELog "Failed to read initial log content /var/log/uwsgi/uwsgi.log: open /var/log/uwsgi/uwsgi.log: permission denied")
     (snd (start env logRequest)) /\
  streaming (fst (start env logRequest)).
Proof.
  intro env.
  pose proof (C5_initial_content_failure_is_not_fatal env logRequest
                "/var/log/uwsgi/uwsgi.log"
                "open /var/log/uwsgi/uwsgi.log: permission denied"
                eq_refl eq_refl (or_introl eq_refl)) as (H1 & _ & _ & H4).
  split; [exact (H1 eq_refl) | exact (proj1 (H4 eq_refl))].
Defined.

(** ** The tailer and the session *)

Lemma drain_ok (c : tail.Config) (f : tailer.File) (p : nat) :
  tailer.cfg (fst (tailer.drain c f p)) = c /\
  tailer.file (fst (tailer.drain c f p)) = f /\
  tailer.closed (fst (tailer.drain c f p)) = false /\
  Forall isLine (snd (tailer.drain c f p)).
Proof.
  unfold tailer.drain. destruct f as [content|]; [|repeat split; constructor].
  unfold tailer.readFrom. simpl.
  repeat split. unfold tailer.lines.
  induction (tailer.readLines (tailer.dropBytes p content));
    simpl; constructor; simpl; auto.
Qed.

(** With [ReOpen] and [Follow] set the tailer never closes [Lines]. *)
Lemma react_open (t : tailer.T) (e : tailer.FsEvent) :
  tail.ReOpen (tailer.cfg t) = true -> tailer.closed t = false ->
  tailer.cfg (fst (tailer.react t e)) = tailer.cfg t /\
  tailer.closed (fst (tailer.react t e)) = false /\
  Forall isLine (snd (tailer.react t e)).
Proof.
  intros Hr Hc. unfold tailer.react. rewrite Hc, Hr.
  destruct e;
    match goal with
    | |- context [tailer.drain ?c ?f ?p] =>
        destruct (drain_ok c f p) as (A & _ & B & C)
    end; auto.
Qed.

Lemma reacts_open (es : list tailer.FsEvent) :
  forall t,
    tail.ReOpen (tailer.cfg t) = true -> tailer.closed t = false ->
    Forall isLine (snd (tailer.reacts t es)).
Proof.
  induction es as [|e es IH]; intros t Hr Hc; simpl; [constructor|].
  destruct (react_open t e Hr Hc) as (A & B & C).
  destruct (tailer.react t e) as [t1 o1]; simpl in *.
  rewrite <- A in Hr. specialize (IH t1 Hr B).
  destruct (tailer.reacts t1 es) as [t2 o2]; simpl in *.
  apply Forall_app; auto.
Qed.

(** On a healthy connection every line is written and the session stays in
    the loop. *)
Lemma run_lines (s : Session) (os : list tailer.Out) :
  streaming s -> Forall isLine os ->
  fst (run s (map (deliver None) os)) = s.
Proof.
  intros Hs H. induction H as [|o os Ho _ IH]; [reflexivity|].
  cbn [map]. rewrite run_cons. cbn [fst].
  destruct o as [l|]; [|contradiction]. 
  assert (E : fst (step s (deliver None (tailer.OutLine l))) = s).
  { destruct Hs as (A & _ & C & _). simpl. rewrite A. unfold lineStep.
    rewrite C. reflexivity. }
  rewrite E. exact IH.
Qed.

Lemma run_text_lines (s : Session) (ls : list string) :
  streaming s ->
  run s (map (deliver None) (tailer.lines ls)) =
  (s, map (fun x => EWrite websocket.TextMessage (lineFrame x) None) ls).
Proof.
  intros Hs. induction ls as [|x ls IH]; [reflexivity|].
  cbn [map tailer.lines]. rewrite run_cons.
  assert (E : step s (deliver None
                (tailer.OutLine {| tail.Text := x; tail.Err := None |})) =
              (s, [EWrite websocket.TextMessage (lineFrame x) None])).
  { destruct Hs as (A & _ & C & _). simpl. rewrite A. unfold lineStep.
    rewrite C. reflexivity. }
  rewrite E. cbn [fst snd]. unfold tailer.lines in IH. rewrite IH. reflexivity.
Qed.

Lemma textFrames_writes (ls : list string) :
  textFrames (map (fun x => EWrite websocket.TextMessage (lineFrame x) None) ls)
  = map lineFrame ls.
Proof.
  unfold textFrames. induction ls as [|x ls IH]; [reflexivity|].
  simpl. f_equal. exact IH.
Qed.

(** C1 (the code at the scenario's input): the file holds the two lines when
    the client connects.  The handler sends the whole content as one frame;
    the tailer, given no [Location], then reads the file from its beginning,
    and the handler sends both lines again, one frame each, before anything
    is appended.  After the third line is appended the client has received
    four frames, not two. *)
Theorem C1_tailer_resends_existing_lines :
  textFrames (snd (serve logRequest (Some twoLines) [])) =
    [twoLines; lineFrame "line1"; lineFrame "line2"] /\
  textFrames (snd (serve logRequest (Some twoLines) [tailer.Append thirdLine])) =
    [twoLines; lineFrame "line1"; lineFrame "line2"; thirdLine] /\
  tail.Location tailConfig = None /\
  tailer.seekPos (tail.Location tailConfig) (String.length twoLines) = 0.
Proof. vm_compute. repeat split. Qed.

(** The behaviour the scenario describes is the one of a tailer that starts
    at the end of the file: one frame of content, nothing more until the
    file grows, and then the appended line alone. *)
Lemma scenario_with_location_at_end :
  textFrames (snd (serveWith tailConfigFromEnd logRequest (Some twoLines) [])) =
    [twoLines] /\
  textFrames (snd (serveWith tailConfigFromEnd logRequest (Some twoLines)
                     [tailer.Append thirdLine])) =
    [twoLines; thirdLine].
Proof. vm_compute. split; reflexivity. Qed.

(** C9: with the configuration of the program, a tailer whose file is
    replaced at the same path, or truncated, does not close [Lines]: it reads
    the file at the path again from its start, and the session, still in the
    loop, sends the lines of the new file as frames.  Whatever happens to the
    file, in any order, the session of a healthy connection never leaves the
    loop. *)
Theorem C9_rotation_and_truncation_are_survived :
  forall (t : tailer.T) (s : Session) (new : string),
    tailer.cfg t = tailConfig -> tailer.closed t = false -> streaming s ->
    tailer.react t (tailer.Rotate new) = tailer.drain tailConfig (Some new) 0 /\
    tailer.react t tailer.Truncate = tailer.drain tailConfig (Some "") 0 /\
    tailer.closed (fst (tailer.react t (tailer.Rotate new))) = false /\
    tailer.closed (fst (tailer.react t tailer.Truncate)) = false /\
    run s (map (deliver None) (snd (tailer.react t (tailer.Rotate new)))) =
      (s, map (fun x => EWrite websocket.TextMessage (lineFrame x) None)
              (tailer.readLines new)) /\
    textFrames
      (snd (run s (map (deliver None)
                     (snd (tailer.react t (tailer.Rotate new)))))) =
      map lineFrame (tailer.readLines new) /\
    (forall f fs, main (fst (serve logRequest f fs)) = Streaming).
Proof.
  intros t s new Hcfg Hcl Hs.
  assert (E1 : tailer.react t (tailer.Rotate new) =
               tailer.drain tailConfig (Some new) 0).
  { unfold tailer.react. rewrite Hcl, Hcfg. reflexivity. }
  assert (E2 : tailer.react t tailer.Truncate =
               tailer.drain tailConfig (Some "") 0).
  { unfold tailer.react. rewrite Hcl, Hcfg. reflexivity. }
  split; [exact E1|]. split; [exact E2|].
  split; [rewrite E1; apply drain_ok|].
  split; [rewrite E2; apply drain_ok|].
  assert (E3 : run s (map (deliver None)
                        (snd (tailer.react t (tailer.Rotate new)))) =
               (s, map (fun x => EWrite websocket.TextMessage (lineFrame x) None)
                       (tailer.readLines new))).
  { rewrite E1. unfold tailer.drain, tailer.readFrom, tailer.dropBytes.
    rewrite Nat.sub_0_r.
    assert (Hsub : forall x, String.substring 0 (String.length x) x = x).
    { induction x as [|a x IH]; simpl; [reflexivity|now rewrite IH]. }
    rewrite Hsub. cbn [snd].
    apply run_text_lines; exact Hs. }
  split; [exact E3|].
  split; [rewrite E3; apply textFrames_writes|].
  - intros f fs. unfold serve, serveWith.
    assert (H0 : startWith tailConfig
              {| upgradeErr := None;
                 readFile := ReadFile "/var/log/uwsgi/uwsgi.log" f;
                 initWriteErr := None;
                 tailFileErr := tailer.openErr tailConfig f |} logRequest
            = ({| path := "/var/log/uwsgi/uwsgi.log"; main := Streaming;
                  defers := [DTailCleanup; DConnClose]; hb := HbTicking;
                  conn := websocket.Open; tl := Tailing |},
               snd (startWith tailConfig
                 {| upgradeErr := None;
                    readFile := ReadFile "/var/log/uwsgi/uwsgi.log" f;
                    initWriteErr := None;
                    tailFileErr := tailer.openErr tailConfig f |} logRequest))).
    { destruct f; reflexivity. }
    rewrite H0. clear H0.
    set (s0 := {| path := "/var/log/uwsgi/uwsgi.log"; main := Streaming;
                  defers := [DTailCleanup; DConnClose]; hb := HbTicking;
                  conn := websocket.Open; tl := Tailing |}).
    assert (Hs0 : streaming s0) by (unfold streaming; simpl; repeat split; discriminate).
    unfold tailer.TailFile. simpl tail.Follow. cbv iota.
    match goal with
    | |- context [tailer.drain ?c ?g ?p] =>
        destruct (drain_ok c g p) as (A & _ & B & C);
        destruct (tailer.drain c g p) as [t0 o0]
    end.
    simpl in A, B, C.
    assert (Hr : tail.ReOpen (tailer.cfg t0) = true) by (rewrite A; reflexivity).
    pose proof (reacts_open fs t0 Hr B) as D.
    destruct (tailer.reacts t0 fs) as [t1 o1]. simpl in D.
    pose proof (run_lines s0 (o0 ++ o1) Hs0 (proj2 (Forall_app _ _ _) (conj C D))) as E.
    destruct (run s0 (map (deliver None) (o0 ++ o1))) as [s1 tr1].
    simpl in E. subst s1. reflexivity.
Qed.

Lemma C9_rotation_witness :
  run liveSession
    (map (deliver None)
       (snd (tailer.react (fst (tailer.TailFile tailConfig (Some twoLines)))
               (tailer.Rotate thirdLine)))) =
  (liveSession, [EWrite websocket.TextMessage thirdLine None]).
Proof.
  pose proof (C9_rotation_and_truncation_are_survived
                (fst (tailer.TailFile tailConfig (Some twoLines)))
                liveSession thirdLine eq_refl eq_refl liveSession_streaming)
    as (_ & _ & _ & _ & H & _ & _).
  exact H.
Defined.

(** Without [ReOpen] the same rotation ends the tailer and, with it, the
    session: the field set in the program is what keeps the session open. *)
Lemma rotation_without_reopen_closes :
  let s := fst (serveWith tailConfigNoReOpen logRequest (Some twoLines)
                  [tailer.Rotate thirdLine]) in
  main s = Returned /\ conn s = websocket.Closed.
Proof. vm_compute. split; reflexivity. Qed.

Lemma C4_wrong_path_witness :
  wsHandler (healthy twoLines)
    {| URL_Path := "/ws/other_log"; Header_Origin := None |}
    [EvTick None; EvCtxDone] =
  (noSession, [EHttpError "Invalid log path" 404%Z]).
Proof.
  refine (proj1 (C4_wrong_path_not_found (healthy twoLines)
                   {| URL_Path := "/ws/other_log"; Header_Origin := None |}
                   [EvTick None; EvCtxDone] _)).
  simpl. discriminate.
Defined.

(** * Further properties of [main.go] *)

(** ** Routing *)

Lemma run_noSession (es : list Event) : run noSession es = (noSession, []).
Proof.
  induction es as [|e es IH]; [reflexivity|].
  simpl. destruct e; simpl; rewrite IH; reflexivity.
Qed.


Lemma endsInSlash_app (p : string) :
  http.endsInSlash (String.append p "/") = true.
Proof.
  induction p as [|c p IH]; [reflexivity|].
  change (String.append (String c p) "/") with (String c (String.append p "/")).
  destruct p as [|c' p']; [reflexivity|exact IH].
Qed.

Lemma shouldRedirect_main (p : string) :
  http.shouldRedirect Handler mainMux p = false.
Proof.
  unfold http.shouldRedirect.
  cbn [http.lookup http.m mainMux http.pattern].
  destruct (String.eqb "/" p); [reflexivity|].
  destruct (String.eqb "/ws/uwsgi_log" p); [reflexivity|].
  destruct p as [|c p']; [reflexivity|].
  destruct (String.eqb_spec "/" (String.append (String c p') "/")) as [E|_].
  - exfalso. simpl in E. injection E as _ E.
    destruct p'; discriminate.
  - destruct (String.eqb_spec "/ws/uwsgi_log" (String.append (String c p') "/"))
      as [E|_]; [|reflexivity].
    exfalso. pose proof (endsInSlash_app (String c p')) as H.
    rewrite <- E in H. discriminate.
Qed.

Lemma handlerOf_main env r es :
  match http.handlerOf Handler mainMux (URL_Path r) with
  | http.Found _ HwsHandler => ByWsHandler (wsHandler env r es)
  | http.Found _ HRoot => Plain (rootHandler r)
  | http.Missing _ => Plain http.NotFound
  | http.MovedTo _ target => Redirect target
  end = answer env r es.
Proof.
  unfold http.handlerOf, http.matchPath, answer.
  cbn [http.lookup http.longest http.m http.es mainMux http.pattern http.h].
  rewrite (String.eqb_sym "/" (URL_Path r)).
  rewrite (String.eqb_sym "/ws/uwsgi_log" (URL_Path r)).
  destruct (String.eqb_spec (URL_Path r) "/") as [E|N].
  - unfold rootHandler. rewrite E. reflexivity.
  - destruct (String.eqb_spec (URL_Path r) "/ws/uwsgi_log") as [E2|N2];
      [reflexivity|].
    assert (R : rootHandler r = http.NotFound).
    { unfold rootHandler.
      destruct (String.eqb_spec (URL_Path r) "/"); [contradiction|reflexivity]. }
    destruct (String.prefix "/" (URL_Path r)); [|reflexivity].
    exact (f_equal Plain R).
Qed.

Lemma server_routes method env r es :
  server method env r es =
  Some (if String.eqb (URL_Path r) "*"
        then Plain {| http.Status := http.StatusBadRequest; http.Body := "" |}
        else if negb (String.eqb method "CONNECT") &&
                negb (String.eqb (http.cleanPath (URL_Path r)) (URL_Path r))
             then Redirect (http.cleanPath (URL_Path r))
             else answer env r es).
Proof.
  assert (R0 : registrations = Some mainMux) by reflexivity.
  unfold server. rewrite R0. f_equal. unfold ServeHTTP.
  destruct (String.eqb (URL_Path r) "*"); [reflexivity|].
  unfold http.route. rewrite !shouldRedirect_main.
  destruct (String.eqb method "CONNECT"); cbn [negb andb].
  - apply handlerOf_main.
  - destruct (String.eqb (http.cleanPath (URL_Path r)) (URL_Path r));
      cbn [negb]; [apply handlerOf_main|reflexivity].
Qed.


(** The paths of the three kinds, on the server. *)
Lemma routing_examples :
  let get p := server "GET" (healthy twoLines)
                 {| URL_Path := p; Header_Origin := None |} [] in
  get "//" = Some (Redirect "/") /\
  get "/./" = Some (Redirect "/") /\
  get "/ws/../ws/uwsgi_log" = Some (Redirect "/ws/uwsgi_log") /\
  get "/ws//uwsgi_log" = Some (Redirect "/ws/uwsgi_log") /\
  get "/ws/uwsgi_log/" = Some (Plain http.NotFound) /\
  get "/logs" = Some (Plain http.NotFound) /\
  get "*" = Some (Plain {| http.Status := 400; http.Body := "" |}) /\
  get "/" = Some (Plain {| http.Status := 200; http.Body := rootBody |}).
Proof. vm_compute. repeat split. Qed.

Lemma runDefers_noHttpError (ds : list Deferred) :
  forall s, existsb isHttpError (snd (runDefers ds s)) = false.
Proof.
  induction ds as [|d ds IH]; intro s; [reflexivity|].
  simpl. destruct d; simpl.
  - specialize (IH {| path := path s; main := main s; defers := defers s;
                      hb := hb s; conn := websocket.Closed; tl := tl s |}).
    destruct (runDefers ds _); exact IH.
  - specialize (IH {| path := path s; main := main s; defers := defers s;
                      hb := hb s; conn := conn s; tl := CleanedUp |}).
    destruct (runDefers ds _); exact IH.
Qed.

Lemma step_noHttpError (s : Session) (e : Event) :
  existsb isHttpError (snd (step s e)) = false.
Proof.
  pose proof (runDefers_noHttpError (defers s)
                {| path := path s; main := Returned; defers := [];
                   hb := hb s; conn := conn s; tl := tl s |}) as R.
  fold (ret s) in R.
  destruct e as [io|l io| |]; simpl.
  - unfold heartbeatStep. destruct (hb s); try reflexivity.
    destruct (websocket.WriteMessage (conn s) io); reflexivity.
  - destruct (main s); [|reflexivity]. unfold lineStep.
    destruct (websocket.WriteMessage (conn s) io).
    + destruct (ret s) as [s' t]; simpl in *.
      destruct (tail.Err l); simpl; exact R.
    + destruct (tail.Err l); reflexivity.
  - destruct (main s); [|reflexivity].
    destruct (ret s) as [s' t]; simpl in *. exact R.
  - destruct (main s); [|reflexivity].
    destruct (ret s) as [s' t]; simpl in *. exact R.
Qed.

Lemma run_noHttpError (es : list Event) :
  forall s, existsb isHttpError (snd (run s es)) = false.
Proof.
  induction es as [|e es IH]; intro s; [reflexivity|].
  rewrite run_cons. cbn [snd].
  rewrite existsb_app, step_noHttpError, IH. reflexivity.
Qed.

Lemma start_noHttpError env r :
  logFilePathOf r <> None ->
  existsb isHttpError (snd (start env r)) = false.
Proof.
  intro Hp. unfold start, startWith.
  destruct (logFilePathOf r) as [p|]; [|congruence].
  destruct (websocket.Upgrade upgrader r (upgradeErr env)); [reflexivity|].
  assert (Hi : existsb isHttpError (sendInitial p env) = false).
  { unfold sendInitial. destruct (readFile env) as [c|e]; [|reflexivity].
    destruct (0 <? String.length c)%nat; [|reflexivity].
    destruct (websocket.WriteMessage websocket.Open (initWriteErr env));
      reflexivity. }
  destruct (tailFileErr env); cbn -[sendInitial];
    rewrite !existsb_app, Hi; reflexivity.
Qed.


(** X2: the path check of [wsHandler] never fires behind the server: a
    request the multiplexer hands to [wsHandler] has the log endpoint's path,
    whatever its method, so the run answers no HTTP error (the 404 of line 31
    is never sent) and goes on to attempt the upgrade. *)
Theorem X2_path_check_is_unreachable_behind_server :
  forall method env r es res,
    server method env r es = Some (ByWsHandler res) ->
    URL_Path r = "/ws/uwsgi_log" /\
    res = wsHandler env r es /\
    existsb isHttpError (snd res) = false /\
    existsb isUpgrade (snd res) = true.
Proof.
  intros method env r es res H. rewrite server_routes in H.
  destruct (String.eqb (URL_Path r) "*"); [discriminate|].
  destruct (negb (String.eqb method "CONNECT") &&
            negb (String.eqb (http.cleanPath (URL_Path r)) (URL_Path r)));
    [discriminate|].
  unfold answer in H.
  destruct (String.eqb_spec (URL_Path r) "/ws/uwsgi_log") as [E|N].
  - injection H as <-. split; [exact E|]. split; [reflexivity|].
    assert (Hp : logFilePathOf r <> None).
    { unfold logFilePathOf. rewrite E. discriminate. }
    unfold wsHandler.
    pose proof (start_noHttpError env r Hp) as H1.
    assert (H2 : existsb isUpgrade (snd (start env r)) = true).
    { unfold start, startWith, logFilePathOf. rewrite E. simpl.
      destruct (upgradeErr env); [reflexivity|].
      simpl. destruct (tailFileErr env); reflexivity. }
    destruct (start env r) as [s t]; simpl in H1, H2.
    pose proof (run_noHttpError es s) as H3.
    destruct (run s es) as [s' t']; simpl in *.
    rewrite !existsb_app, H1, H2, H3. split; reflexivity.
  - destruct (String.eqb (URL_Path r) "/"); discriminate.
Qed.

Lemma X2_path_check_witness :
  existsb isHttpError
    (snd (wsHandler (healthy twoLines) logRequest [EvTick None; EvCtxDone]))
  = false.
Proof.
  exact (proj1 (proj2 (proj2
    (X2_path_check_is_unreachable_behind_server "GET" (healthy twoLines)
       logRequest [EvTick None; EvCtxDone] _ eq_refl)))).
Defined.

(** ** Failures at the start *)

(** X3: when the upgrade fails the handler logs the cause and returns: no
    heartbeat is started, the file is not read, no tailer is started, and
    there is nothing to close; later events find no session. *)
Theorem X3_upgrade_failure_creates_no_session :
  forall env r es p e,
    logFilePathOf r = Some p ->
    upgradeErr env = Some e ->
    wsHandler env r es =
    (noSession,
     [EUpgrade r (Some e); ELog (Sprintf ["WebSocket upgrade failed: "; e])]).
Proof.
  intros env r es p e Hp Hu.
  unfold wsHandler, start, startWith. rewrite Hp, Hu. simpl.
  rewrite run_noSession. reflexivity.
Qed.

Lemma X3_upgrade_failure_witness :
  wsHandler {| upgradeErr := Some "websocket: the client is not using the websocket protocol";
               readFile := inl twoLines; initWriteErr := None;
               tailFileErr := None |}
            logRequest [EvTick None; EvLinesClosed] =
  (noSession,
   [EUpgrade logRequest
      (Some "websocket: the client is not using the websocket protocol");
    ELog "WebSocket upgrade failed: websocket: the client is not using the websocket protocol"]).
Proof.
  exact (X3_upgrade_failure_creates_no_session
           {| upgradeErr := Some "websocket: the client is not using the websocket protocol";
              readFile := inl twoLines; initWriteErr := None;
              tailFileErr := None |}
           logRequest
           [EvTick None; EvLinesClosed] "/var/log/uwsgi/uwsgi.log"
           "websocket: the client is not using the websocket protocol"
           eq_refl eq_refl).
Defined.

(** X4: when [tail.TailFile] fails the handler logs the cause and returns;
    the deferred close of the connection runs, and no cleanup of a tailer,
    since none was created.  The heartbeat, already started, is left running
    against the closed connection: nothing reaches the client any more. *)
Theorem X4_tail_failure_closes_connection_only :
  forall env r p e,
    logFilePathOf r = Some p ->
    upgradeErr env = None ->
    tailFileErr env = Some e ->
    start env r =
      ({| path := p; main := Returned; defers := []; hb := HbTicking;
          conn := websocket.Closed; tl := NoTail |},
       [EUpgrade r None;
        ELog (Sprintf ["Client connected to "; p; " WebSocket"]);
        EGoHeartbeat heartbeatPeriod] ++ sendInitial p env ++
       [ETailFile p tailConfig (Some e);
        ELog (Sprintf ["Failed to tail log file "; p; ": "; e]);
        EConnClose]) /\
    count isTailCleanup (snd (start env r)) = 0 /\
    forall es, frames (snd (run (fst (start env r)) es)) = [].
Proof.
  intros env r p e Hp Hu Ht.
  assert (E : start env r =
      ({| path := p; main := Returned; defers := []; hb := HbTicking;
          conn := websocket.Closed; tl := NoTail |},
       [EUpgrade r None;
        ELog (Sprintf ["Client connected to "; p; " WebSocket"]);
        EGoHeartbeat heartbeatPeriod] ++ sendInitial p env ++
       [ETailFile p tailConfig (Some e);
        ELog (Sprintf ["Failed to tail log file "; p; ": "; e]);
        EConnClose])).
  { unfold start, startWith. rewrite Hp, Hu, Ht. cbn -[sendInitial Sprintf].
    reflexivity. }
  split; [exact E|]. rewrite E. cbn [fst snd]. split.
  - unfold count. cbn -[sendInitial Sprintf]. rewrite filter_app.
    rewrite length_app. cbn -[sendInitial Sprintf].
    unfold sendInitial. destruct (readFile env) as [c|re]; [|reflexivity].
    destruct (0 <? String.length c)%nat; [|reflexivity].
    destruct (websocket.WriteMessage websocket.Open (initWriteErr env));
      reflexivity.
  - intro es. apply returned_run. repeat split; simpl; discriminate.
Qed.

Lemma X4_tail_failure_witness :
  let env := {| upgradeErr := None; readFile := inl twoLines;
                initWriteErr := None;
                tailFileErr := Some "too many open files" |} in
  count isTailCleanup (snd (start env logRequest)) = 0 /\
  frames (snd (run (fst (start env logRequest))
                 [EvTick None;
                  EvLine {| tail.Text := "line3"; tail.Err := None |} None])) = [].
Proof.
  intro env.
  pose proof (X4_tail_failure_closes_connection_only env logRequest
                "/var/log/uwsgi/uwsgi.log" "too many open files"
                eq_refl eq_refl eq_refl) as (_ & H2 & H3).
  split; [exact H2 | apply H3].
Defined.

(** X5: before the loop the client is sent at most one frame: the whole
    content of the file as one text frame, when the file could be read, is
    not empty and the write succeeds.  An empty file and an unreadable file
    yield no frame at all. *)
Theorem X5_initial_frame_is_whole_content :
  forall env r p,
    logFilePathOf r = Some p ->
    upgradeErr env = None ->
    frames (snd (start env r)) =
    match readFile env, initWriteErr env with
    | inl (String a c), None => [(websocket.TextMessage, String a c)]
    | _, _ => []
    end.
Proof.
  intros env r p Hp Hu.
  unfold start, startWith. rewrite Hp, Hu. cbn -[sendInitial Sprintf].
  assert (Hi : frames (sendInitial p env) =
               match readFile env, initWriteErr env with
               | inl (String a c), None => [(websocket.TextMessage, String a c)]
               | _, _ => []
               end).
  { unfold sendInitial. destruct (readFile env) as [c|e]; [|reflexivity].
    destruct c as [|a c]; [reflexivity|].
    cbn. destruct (initWriteErr env); reflexivity. }
  destruct (tailFileErr env); cbn -[sendInitial Sprintf];
    rewrite !frames_app, Hi; cbn; rewrite app_nil_r; reflexivity.
Qed.

Lemma X5_initial_frame_witness :
  frames (snd (start (healthy twoLines) logRequest)) =
    [(websocket.TextMessage, twoLines)] /\
  frames (snd (start (healthy "") logRequest)) = [].
Proof.
  split.
  - exact (X5_initial_frame_is_whole_content (healthy twoLines) logRequest
             "/var/log/uwsgi/uwsgi.log" eq_refl eq_refl).
  - exact (X5_initial_frame_is_whole_content (healthy "") logRequest
             "/var/log/uwsgi/uwsgi.log" eq_refl eq_refl).
Defined.

(** ** Frames in the loop *)

Lemma textFrames_app (t1 t2 : Trace) :
  textFrames (t1 ++ t2) = textFrames t1 ++ textFrames t2.
Proof.
  unfold textFrames. now rewrite frames_app, filter_app, map_app.
Qed.

Lemma quiet_step (s : Session) (e : Event) :
  streaming s -> quiet e ->
  streaming (fst (step s e)) /\ textFrames (snd (step s e)) = textOf e.
Proof.
  intros Hs Hq. pose proof Hs as (A & B & C & D & E).
  destruct e as [io|l [w|]| |]; try contradiction.
  - simpl. unfold heartbeatStep. rewrite C.
    destruct (hb s) eqn:Hh; simpl; [congruence| |auto].
    destruct io; simpl; [|auto].
    split; [|reflexivity]. unfold streaming; simpl.
    repeat split; auto. discriminate.
  - simpl. rewrite A. unfold lineStep. rewrite C. simpl.
    split; [exact Hs|]. destruct (tail.Err l); reflexivity.
Qed.


(** ** The deferred calls *)

Lemma count_app (f : Effect -> bool) (t1 t2 : Trace) :
  count f (t1 ++ t2) = count f t1 + count f t2.
Proof. unfold count. now rewrite filter_app, length_app. Qed.

Lemma count_cons (f : Effect -> bool) (e : Effect) (t : Trace) :
  count f (e :: t) = (if f e then 1 else 0) + count f t.
Proof. unfold count. simpl. destruct (f e); reflexivity. Qed.

Lemma step_counts (s : Session) (e : Event) :
  inv s ->
  count isConnClose (snd (step s e)) + closedN (conn s)
    = closedN (conn (fst (step s e))) /\
  count isTailCleanup (snd (step s e)) + cleanedN (tl s)
    = cleanedN (tl (fst (step s e))).
Proof.
  intros [Hs|Hr].
  - pose proof Hs as (A & B & C & D & E).
    pose proof (ret_streaming s Hs) as R.
    destruct e as [io|l io| |]; simpl.
    + unfold heartbeatStep. rewrite C.
      destruct (hb s); simpl; rewrite ?C, ?D; auto.
      destruct io; simpl; rewrite ?C, ?D; auto.
    + rewrite A. unfold lineStep. rewrite C, R. simpl.
      destruct io; destruct (tail.Err l); simpl; rewrite ?C, ?D; auto.
    + rewrite A, R. simpl. rewrite C, D. auto.
    + rewrite A, R. simpl. rewrite C, D. auto.
  - destruct Hr as (A & B & C & D).
    destruct e as [io|l io| |]; simpl; try (rewrite A; simpl; auto; fail).
    unfold heartbeatStep.
    destruct (hb s); simpl; auto.
    destruct (websocket.WriteMessage (conn s) io); simpl; auto.
Qed.

Lemma run_counts (es : list Event) :
  forall s, inv s ->
    count isConnClose (snd (run s es)) + closedN (conn s)
      = closedN (conn (fst (run s es))) /\
    count isTailCleanup (snd (run s es)) + cleanedN (tl s)
      = cleanedN (tl (fst (run s es))).
Proof.
  induction es as [|e es IH]; intros s Hi; [split; reflexivity|].
  rewrite run_cons. cbn [fst snd]. rewrite !count_app.
  destruct (step_counts s e Hi) as [H1 H2].
  destruct (IH _ (step_inv s e Hi)) as [H3 H4].
  split; lia.
Qed.

Lemma start_counts env r :
  count isConnClose (snd (start env r)) = closedN (conn (fst (start env r))) /\
  count isTailCleanup (snd (start env r)) = cleanedN (tl (fst (start env r))).
Proof.
  unfold start, startWith.
  destruct (logFilePathOf r) as [p|]; [|split; reflexivity].
  destruct (websocket.Upgrade upgrader r (upgradeErr env));
    [split; reflexivity|].
  assert (Hi : count isConnClose (sendInitial p env) = 0 /\
               count isTailCleanup (sendInitial p env) = 0).
  { unfold sendInitial. destruct (readFile env) as [c|e]; [|split; reflexivity].
    destruct (0 <? String.length c)%nat; [|split; reflexivity].
    destruct (websocket.WriteMessage websocket.Open (initWriteErr env));
      split; reflexivity. }
  destruct Hi as [H1 H2].
  destruct (tailFileErr env); cbn -[sendInitial Sprintf count];
    rewrite !count_cons, !count_app, H1, H2; split; reflexivity.
Qed.

(** X7: in every run of the handler the connection is closed at most once
    and the tailer cleaned up at most once, and each exactly when the session
    ends with the connection closed, respectively the tailer cleaned up:
    nothing is released twice, whatever events follow the return. *)
Theorem X7_released_once :
  forall env r es,
    let s := fst (wsHandler env r es) in
    let t := snd (wsHandler env r es) in
    count isConnClose t = closedN (conn s) /\
    count isTailCleanup t = cleanedN (tl s) /\
    count isConnClose t <= 1 /\ count isTailCleanup t <= 1.
Proof.
  intros env r es. cbv zeta.
  unfold wsHandler.
  pose proof (startWith_inv tailConfig env r) as Hi. fold (start env r) in Hi.
  destruct (start_counts env r) as [H1 H2].
  destruct (start env r) as [s0 t0]; cbn [fst snd] in *.
  destruct (run_counts es s0 Hi) as [H3 H4].
  destruct (run s0 es) as [s1 t1]; cbn [fst snd] in *.
  rewrite !count_app.
  assert (closedN (conn s1) <= 1) by (destruct (conn s1); simpl; lia).
  assert (cleanedN (tl s1) <= 1) by (destruct (tl s1); simpl; lia).
  lia.
Qed.

(** ** After the handler has returned *)

Lemma returned_writes (es : list Event) :
  forall s, returned s ->
    count isWrite (snd (run s es)) <=
      match hb s with HbTicking => 1 | _ => 0 end.
Proof.
  induction es as [|e es IH]; intros s Hr;
    [change (0 <= match hb s with HbTicking => 1 | _ => 0 end);
     destruct (hb s); lia|].
  rewrite run_cons. cbn [fst snd]. rewrite count_app.
  pose proof (IH _ (proj1 (returned_step s e Hr))) as H.
  destruct Hr as (A & B & C & D).
  assert (E : forall e', (forall io, e' <> EvTick io) -> step s e' = (s, [])).
  { intros e' He. destruct e'; simpl; try (rewrite A; reflexivity).
    now elim (He io). }
  destruct e as [io|l io| |];
    try (rewrite E in * by discriminate; cbn [fst snd] in *;
         change (count isWrite []) with 0; destruct (hb s); lia).
  simpl in *. unfold heartbeatStep in *.
  destruct (hb s) eqn:Hh; cbn [fst snd] in *;
    try (change (count isWrite []) with 0; rewrite Hh in H; lia).
  destruct (conn s) eqn:Hc; try congruence; cbn in *; lia.
Qed.

(** X8: once the handler has returned, what is left of the session makes at
    most one more write attempt, the heartbeat's ping on the closed
    connection; no frame reaches the client, and lines that still arrive are
    not written. *)
Theorem X8_one_write_attempt_after_return :
  forall env r es1 es2,
    main (fst (wsHandler env r es1)) = Returned ->
    let rest := snd (run (fst (wsHandler env r es1)) es2) in
    count isWrite rest <= 1 /\ frames rest = [] /\ textFrames rest = [].
Proof.
  intros env r es1 es2 Hm rest. subst rest.
  destruct (wsHandler_inv env r es1) as [(A & _)|Hr]; [congruence|].
  pose proof (returned_writes es2 _ Hr) as H1.
  destruct (returned_run es2 _ Hr) as [_ H2].
  split; [destruct (hb (fst (wsHandler env r es1))); lia|].
  split; [exact H2|]. unfold textFrames. rewrite H2. reflexivity.
Qed.

Lemma X8_after_return_witness :
  count isWrite
    (snd (run (fst (wsHandler (healthy twoLines) logRequest [EvCtxDone]))
            [EvTick None; EvTick None;
             EvLine {| tail.Text := "line3"; tail.Err := None |} None])) <= 1.
Proof.
  exact (proj1 (X8_one_write_attempt_after_return (healthy twoLines) logRequest
                  [EvCtxDone]
                  [EvTick None; EvTick None;
                   EvLine {| tail.Text := "line3"; tail.Err := None |} None]
                  eq_refl)).
Defined.

Lemma closing_step (s : Session) (e : Event) :
  inv s -> closing e ->
  returned (fst (step s e)) /\ frames (snd (step s e)) = [].
Proof.
  intros [Hs|Hr] Hc; [|apply returned_step; exact Hr].
  pose proof Hs as (A & B & C & D & E).
  pose proof (ret_streaming s Hs) as R.
  assert (Rel : returned {| path := path s; main := Returned; defers := [];
                            hb := hb s; conn := websocket.Closed;
                            tl := CleanedUp |})
    by (repeat split; simpl; discriminate).
  destruct e as [io|l io| |]; simpl in Hc |- *; try contradiction.
  - rewrite A. unfold lineStep. rewrite C, R.
    destruct io as [w|]; [|congruence]. simpl.
    split; [exact Rel|]. destruct (tail.Err l); reflexivity.
  - rewrite A, R. simpl. split; [exact Rel|reflexivity].
  - rewrite A, R. simpl. split; [exact Rel|reflexivity].
Qed.

(** X9: every way out of the loop is final: after a line whose write fails,
    after the end of the request context and after the closing of [Lines],
    the handler has returned and no frame is written any more, whatever
    arrives later; the frames of the whole run are those written before. *)
Theorem X9_every_exit_is_final :
  forall env r es1 e es2,
    closing e ->
    main (fst (wsHandler env r (es1 ++ e :: es2))) = Returned /\
    frames (snd (wsHandler env r (es1 ++ e :: es2))) =
    frames (snd (wsHandler env r es1)).
Proof.
  intros env r es1 e es2 Hc.
  unfold wsHandler, start.
  pose proof (startWith_inv tailConfig env r) as H0.
  destruct (startWith tailConfig env r) as [s0 t0]; simpl in H0.
  pose proof (run_inv es1 s0 H0) as H1.
  rewrite (run_app s0 es1 (e :: es2)), run_cons.
  destruct (run s0 es1) as [s1 t1]; cbn [fst snd] in *.
  destruct (closing_step s1 e H1 Hc) as [Hr Hf].
  destruct (returned_run es2 _ Hr) as [(A & _) Hf2].
  split; [exact A|].
  rewrite !frames_app, Hf, Hf2, !app_nil_r. reflexivity.
Qed.

Lemma X9_exit_witness :
  frames (snd (wsHandler (healthy twoLines) logRequest
                 ([EvTick None] ++
                  EvLine {| tail.Text := "line3"; tail.Err := None |}
                         (Some "write: broken pipe")
                  :: [EvLine {| tail.Text := "line4"; tail.Err := None |} None])))
  = frames (snd (wsHandler (healthy twoLines) logRequest [EvTick None])).
Proof.
  refine (proj2 (X9_every_exit_is_final (healthy twoLines) logRequest
                   [EvTick None] _ _ _)).
  simpl. discriminate.
Defined.

(** ** What is written *)

Lemma runDefers_knownWrite (ds : list Deferred) :
  forall s, Forall knownWrite (snd (runDefers ds s)).
Proof.
  induction ds as [|d ds IH]; intro s; [constructor|].
  simpl. destruct d; simpl.
  - specialize (IH {| path := path s; main := main s; defers := defers s;
                      hb := hb s; conn := websocket.Closed; tl := tl s |}).
    destruct (runDefers ds _); constructor; [exact I|exact IH].
  - specialize (IH {| path := path s; main := main s; defers := defers s;
                      hb := hb s; conn := conn s; tl := CleanedUp |}).
    destruct (runDefers ds _); constructor; [exact I|exact IH].
Qed.

Lemma step_knownWrite (s : Session) (e : Event) :
  Forall knownWrite (snd (step s e)).
Proof.
  pose proof (runDefers_knownWrite (defers s)
                {| path := path s; main := Returned; defers := [];
                   hb := hb s; conn := conn s; tl := tl s |}) as R.
  fold (ret s) in R.
  destruct e as [io|l io| |]; simpl.
  - unfold heartbeatStep. destruct (hb s); try constructor.
    destruct (websocket.WriteMessage (conn s) io); simpl;
      repeat (apply Forall_cons; [simpl; intuition auto|]); constructor.
  - destruct (main s); [|constructor]. unfold lineStep.
    destruct (websocket.WriteMessage (conn s) io).
    + destruct (ret s) as [s' t]; simpl in *.
      destruct (tail.Err l); simpl;
        repeat (apply Forall_cons; [simpl; intuition auto|]); exact R.
    + destruct (tail.Err l); simpl;
        repeat (apply Forall_cons; [simpl; intuition auto|]); constructor.
  - destruct (main s); [|constructor].
    destruct (ret s) as [s' t]; simpl in *. constructor; [exact I|exact R].
  - destruct (main s); [|constructor].
    destruct (ret s) as [s' t]; simpl in *. constructor; [exact I|exact R].
Qed.

Lemma run_knownWrite (es : list Event) :
  forall s, Forall knownWrite (snd (run s es)).
Proof.
  induction es as [|e es IH]; intro s; [constructor|].
  rewrite run_cons. cbn [snd].
  apply Forall_app. split; [apply step_knownWrite|apply IH].
Qed.

(** X10: the handler writes two kinds of message only: text frames and
    pings without payload.  It never sends a binary, close or pong message:
    a session that ends is ended by closing the connection, without a close
    frame. *)
Theorem X10_only_text_and_empty_pings :
  forall env r es mt payload err,
    In (EWrite mt payload err) (snd (wsHandler env r es)) ->
    mt = websocket.TextMessage \/
    (mt = websocket.PingMessage /\ payload = "").
Proof.
  intros env r es mt payload err Hin.
  assert (H : Forall knownWrite (snd (wsHandler env r es))).
  { unfold wsHandler.
    assert (H0 : Forall knownWrite (snd (start env r))).
    { unfold start, startWith.
      destruct (logFilePathOf r) as [p|]; [|repeat constructor].
      destruct (websocket.Upgrade upgrader r (upgradeErr env));
        [repeat constructor|].
      assert (Hi : Forall knownWrite (sendInitial p env)).
      { unfold sendInitial. destruct (readFile env) as [c|e];
          [|repeat constructor].
        destruct (0 <? String.length c)%nat; [|repeat constructor].
        destruct (websocket.WriteMessage websocket.Open (initWriteErr env));
          repeat (apply Forall_cons; [simpl; intuition auto|]); constructor. }
      destruct (tailFileErr env); cbn -[sendInitial Sprintf];
        do 3 (apply Forall_cons; [exact I|]);
        apply Forall_app; split; auto;
        repeat (apply Forall_cons; [exact I|]); constructor. }
    destruct (start env r) as [s t]; cbn [snd] in H0.
    pose proof (run_knownWrite es s) as H1.
    destruct (run s es) as [s' t']; cbn [snd] in *.
    apply Forall_app; split; assumption. }
  rewrite Forall_forall in H. exact (H _ Hin).
Qed.

Lemma X10_only_text_and_pings_witness :
  websocket.PingMessage = websocket.TextMessage \/
  (websocket.PingMessage = websocket.PingMessage /\ "" = "").
Proof.
  refine (X10_only_text_and_empty_pings (healthy twoLines) logRequest
            [EvTick None] websocket.PingMessage "" None _).
  vm_compute. auto 10.
Defined.

(** X11: leaving the loop always ends the same way: the cause is logged,
    then the deferred calls run last registered first, the cleanup of the
    tailer before the closing of the connection.  Nothing is closed before
    the log, and nothing follows the closing. *)
Theorem X11_exit_logs_then_cleans_up_then_closes :
  forall s e,
    streaming s -> closing e ->
    exists pre,
      snd (step s e) =
        pre ++ [ELog (exitMsg (path s) e); ETailCleanup; EConnClose] /\
      count isConnClose pre = 0 /\ count isTailCleanup pre = 0 /\
      fst (step s e) =
        {| path := path s; main := Returned; defers := []; hb := hb s;
           conn := websocket.Closed; tl := CleanedUp |}.
Proof.
  intros s e Hs Hc. pose proof Hs as (A & B & C & D & E).
  pose proof (ret_streaming s Hs) as R.
  destruct e as [io|l io| |]; simpl in Hc; try contradiction.
  - destruct io as [w|]; [|congruence].
    simpl. rewrite A. unfold lineStep. rewrite C, R. simpl.
    destruct (tail.Err l) as [le|].
    + exists [ELog (Sprintf ["Tail monitoring error for "; path s; ": "; le]);
              EWrite websocket.TextMessage (String.append (tail.Text l) nl)
                (Some w)].
      repeat split.
    + exists [EWrite websocket.TextMessage (String.append (tail.Text l) nl)
                (Some w)].
      repeat split.
  - simpl. rewrite A, R. exists []. repeat split.
  - simpl. rewrite A, R. exists []. repeat split.
Qed.

Lemma X11_exit_order_witness :
  exists pre,
    snd (step liveSession EvCtxDone) =
      pre ++ [ELog (exitMsg (path liveSession) EvCtxDone);
              ETailCleanup; EConnClose] /\
    count isConnClose pre = 0 /\ count isTailCleanup pre = 0 /\
    fst (step liveSession EvCtxDone) =
      {| path := path liveSession; main := Returned; defers := [];
         hb := hb liveSession; conn := websocket.Closed; tl := CleanedUp |}.
Proof.
  exact (X11_exit_logs_then_cleans_up_then_closes liveSession EvCtxDone
           liveSession_streaming I).
Defined.

(** ** Lines and frames *)

Lemma string_app_nil_r (x : string) : String.append x "" = x.
Proof. induction x as [|a x IH]; simpl; [reflexivity|now rewrite IH]. Qed.

Lemma string_app_assoc (x y z : string) :
  String.append x (String.append y z) = String.append (String.append x y) z.
Proof. induction x as [|a x IH]; simpl; [reflexivity|now rewrite IH]. Qed.

Lemma concat_cons (x : string) (xs : list string) :
  String.concat "" (x :: xs) = String.append x (String.concat "" xs).
Proof.
  destruct xs as [|y ys]; simpl; [now rewrite string_app_nil_r|reflexivity].
Qed.


(** * Sessions on one connection *)

Lemma quiet_run (es : list Event) :
  forall s,
    streaming s -> Forall quiet es ->
    streaming (fst (run s es)) /\
    textFrames (snd (run s es)) = flat_map textOf es.
Proof.
  induction es as [|e es IH]; intros s Hs Hq; [split; [exact Hs|reflexivity]|].
  inversion Hq as [|? ? He Hq']; subst.
  rewrite run_cons. cbn [fst snd flat_map].
  destruct (quiet_step s e Hs He) as [H1 H2].
  destruct (IH _ H1 Hq') as [H3 H4].
  split; [exact H3|]. now rewrite textFrames_app, H2, H4.
Qed.

(** X6: a session that has entered the loop and whose lines are all written
    successfully stays in the loop, and the client receives, after the
    initial content, exactly one text frame per line, the line's text
    followed by one newline, in the order of arrival.  Heartbeat pings in
    between add no text frame and drop none; as the connection keeps its
    first write error, a ping can only fail after the last of these lines,
    and then ends the heartbeat alone. *)
Theorem X6_lines_become_frames_in_order :
  forall env r es p,
    logFilePathOf r = Some p ->
    upgradeErr env = None ->
    tailFileErr env = None ->
    Forall quiet es ->
    sticky (initFailed env) es ->
    streaming (fst (wsHandler env r es)) /\
    textFrames (snd (wsHandler env r es)) =
      textFrames (snd (start env r)) ++ flat_map textOf es.
Proof.
  intros env r es p Hp Hu Ht Hq _.
  assert (Hs : streaming (fst (start env r))).
  { unfold start, startWith. rewrite Hp, Hu, Ht. simpl.
    unfold streaming; simpl. repeat split; discriminate. }
  unfold wsHandler. destruct (start env r) as [s0 t0]; cbn [fst snd] in *.
  destruct (quiet_run es s0 Hs Hq) as [H1 H2].
  destruct (run s0 es) as [s1 t1]; cbn [fst snd] in *.
  split; [exact H1|]. now rewrite textFrames_app, H2.
Qed.

Lemma X6_lines_in_order_witness :
  textFrames
    (snd (wsHandler (healthy twoLines) logRequest
            [EvLine {| tail.Text := "a"; tail.Err := None |} None;
             EvTick None;
             EvLine {| tail.Text := "b"; tail.Err := Some "read: interrupted" |} None;
             EvLine {| tail.Text := ""; tail.Err := None |} None;
             EvTick (Some "write: broken pipe");
             EvTick (Some "write: broken pipe")]))
  = [twoLines; lineFrame "a"; lineFrame "b"; lineFrame ""].
Proof.
  refine (proj2 (X6_lines_become_frames_in_order (healthy twoLines) logRequest
                   _ "/var/log/uwsgi/uwsgi.log" eq_refl eq_refl eq_refl _ _)).
  - repeat constructor.
  - simpl. repeat split.
Defined.

(** ** The connection of a session *)

Lemma step_conn (s : Session) (e : Event) :
  inv s ->
  conn (fst (step s e)) = conn s \/ conn (fst (step s e)) = websocket.Closed.
Proof.
  intros [Hs|Hr].
  - pose proof Hs as (A & B & C & D & E).
    pose proof (ret_streaming s Hs) as R.
    destruct e as [io|l io| |]; simpl.
    + left. apply (heartbeatStep_keeps s io).
    + rewrite A. unfold lineStep. rewrite C, R.
      destruct io; simpl; auto.
    + rewrite A, R. auto.
    + rewrite A, R. auto.
  - destruct Hr as (A & _).
    destruct e as [io|l io| |]; simpl; try (rewrite A; auto; fail).
    left. apply (heartbeatStep_keeps s io).
Qed.

Lemma run_conn (es : list Event) :
  forall s, inv s -> conn s <> websocket.NoConn ->
    conn (fst (run s es)) <> websocket.NoConn.
Proof.
  induction es as [|e es IH]; intros s Hi Hc; [exact Hc|].
  rewrite run_cons. cbn [fst].
  apply IH; [apply step_inv; exact Hi|].
  destruct (step_conn s e Hi) as [E|E]; rewrite E; [exact Hc|discriminate].
Qed.

(** A request with the endpoint's path whose upgrade succeeds has a
    connection, from then on open or closed, and the calls of [conn.Close]
    in the run are as many as the final state says. *)
Lemma upgraded_session env r es p :
  logFilePathOf r = Some p ->
  upgradeErr env = None ->
  In (EUpgrade r None) (snd (wsHandler env r es)) /\
  conn (fst (wsHandler env r es)) <> websocket.NoConn /\
  count isConnClose (snd (wsHandler env r es)) =
    closedN (conn (fst (wsHandler env r es))).
Proof.
  intros Hp Hu.
  assert (H0 : In (EUpgrade r None) (snd (start env r)) /\
               conn (fst (start env r)) <> websocket.NoConn).
  { unfold start, startWith. rewrite Hp, Hu. cbn -[sendInitial Sprintf].
    destruct (tailFileErr env); cbn -[sendInitial Sprintf];
      split; auto; discriminate. }
  destruct H0 as [H1 H2].
  pose proof (startWith_inv tailConfig env r) as Hi. fold (start env r) in Hi.
  destruct (start_counts env r) as [H3 _].
  unfold wsHandler.
  destruct (start env r) as [s0 t0]; cbn [fst snd] in *.
  pose proof (run_conn es s0 Hi H2) as H4.
  destruct (run_counts es s0 Hi) as [H5 _].
  destruct (run s0 es) as [s1 t1]; cbn [fst snd] in *.
  split; [apply in_or_app; left; exact H1|].
  split; [exact H4|]. rewrite count_app. lia.
Qed.

(** C2 (amended): in a streaming session a failed ping write is logged and
    ends the heartbeat goroutine, which stops its ticker and never writes
    again; the session itself is not closed: it stays in the loop with its
    connection open.  A failed write of a line is what closes it: the
    handler returns and its deferred [conn.Close] runs, once; so it is with
    the first line that arrives after the failed ping, when the connection
    answers its write with an error. *)
Theorem C2_failed_ping_stops_heartbeat_only :
  forall s e,
    streaming s -> hb s = HbTicking ->
    step s (EvTick (Some e)) =
      (setHb s HbStopped,
       [EWrite websocket.PingMessage "" (Some e);
        ELog (Sprintf ["Failed to send ping to client "; path s; ": "; e]);
        ETickerStop]) /\
    streaming (setHb s HbStopped) /\
    (forall io, step (setHb s HbStopped) (EvTick io) = (setHb s HbStopped, [])) /\
    (forall l w,
       main (fst (step s (EvLine l (Some w)))) = Returned /\
       conn (fst (step s (EvLine l (Some w)))) = websocket.Closed /\
       count isConnClose (snd (step s (EvLine l (Some w)))) = 1) /\
    (forall l w,
       let after := step (setHb s HbStopped) (EvLine l (Some w)) in
       main (fst after) = Returned /\
       conn (fst after) = websocket.Closed /\
       count isConnClose (snd after) = 1).
Proof.
  intros s e Hs Hh.
  pose proof Hs as (A & B & C & D & E).
  assert (Hs' : streaming (setHb s HbStopped)).
  { unfold streaming; simpl. repeat split; auto. discriminate. }
  assert (L : forall s0 l w, streaming s0 ->
            main (fst (step s0 (EvLine l (Some w)))) = Returned /\
            conn (fst (step s0 (EvLine l (Some w)))) = websocket.Closed /\
            count isConnClose (snd (step s0 (EvLine l (Some w)))) = 1).
  { intros s0 l w Hs0. pose proof Hs0 as (A0 & _ & C0 & _).
    simpl. rewrite A0. unfold lineStep. rewrite C0, (ret_streaming s0 Hs0).
    simpl. destruct (tail.Err l); repeat split. }
  split; [|split; [|split; [|split]]].
  - simpl. unfold heartbeatStep. rewrite Hh, C. reflexivity.
  - exact Hs'.
  - intro io. reflexivity.
  - intros l w. apply L; exact Hs.
  - intros l w. apply L; exact Hs'.
Qed.

Lemma C2_failed_ping_witness :
  streaming (setHb liveSession HbStopped) /\
  conn (fst (step (setHb liveSession HbStopped)
               (EvLine {| tail.Text := "line3"; tail.Err := None |}
                       (Some "write: broken pipe")))) = websocket.Closed.
Proof.
  pose proof (C2_failed_ping_stops_heartbeat_only liveSession
                "write: broken pipe" liveSession_streaming eq_refl)
    as (_ & H2 & _ & _ & H5).
  split; [exact H2|].
  exact (proj1 (proj2 (H5 {| tail.Text := "line3"; tail.Err := None |}
                          "write: broken pipe"))).
Defined.

(** C3 (amended): a session exists once the upgrade has succeeded, and on
    every exit path of its handler [conn.Close] has run, exactly once, and
    the connection is closed.  When the request context ends in the loop,
    the wait on the tailer ends at once: the handler logs, its two deferred
    calls run and it returns.  The heartbeat goroutine is not told: it is
    left as it was, and ends at its next tick, when its write on the closed
    connection fails, without any frame reaching the client. *)
Theorem C3_cancellation_and_release :
  forall env r es p,
    logFilePathOf r = Some p ->
    upgradeErr env = None ->
    let s := fst (wsHandler env r es) in
    let t := snd (wsHandler env r es) in
    In (EUpgrade r None) t /\
    (main s = Returned ->
       conn s = websocket.Closed /\ count isConnClose t = 1) /\
    (main s = Streaming ->
       conn s = websocket.Open /\ count isConnClose t = 0 /\
       step s EvCtxDone =
         ({| path := path s; main := Returned; defers := []; hb := hb s;
             conn := websocket.Closed; tl := CleanedUp |},
          [ELog (doneMsg (path s)); ETailCleanup; EConnClose]) /\
       forall io,
         hb s = HbTicking ->
         let r' := step (fst (step s EvCtxDone)) (EvTick io) in
         hb (fst r') = HbStopped /\ frames (snd r') = []).
Proof.
  intros env r es p Hp Hu s t. subst s t.
  destruct (upgraded_session env r es p Hp Hu) as (H1 & H2 & H3).
  pose proof (wsHandler_inv env r es) as Hi.
  set (s := fst (wsHandler env r es)) in *.
  set (t := snd (wsHandler env r es)) in *.
  split; [exact H1|]. split.
  - intro Hm. destruct Hi as [(A & _)|(_ & _ & C & _)]; [congruence|].
    assert (E : conn s = websocket.Closed)
      by (destruct (conn s); congruence).
    split; [exact E|]. rewrite H3, E. reflexivity.
  - intro Hm. destruct Hi as [Hs|(A & _)]; [|congruence].
    pose proof Hs as (_ & _ & C & _).
    split; [exact C|]. split; [rewrite H3, C; reflexivity|].
    assert (E : step s EvCtxDone =
         ({| path := path s; main := Returned; defers := []; hb := hb s;
             conn := websocket.Closed; tl := CleanedUp |},
          [ELog (doneMsg (path s)); ETailCleanup; EConnClose])).
    { simpl. rewrite Hm, (ret_streaming s Hs). reflexivity. }
    split; [exact E|].
    intros io Hh. rewrite E. simpl. unfold heartbeatStep. simpl.
    rewrite Hh. simpl. split; reflexivity.
Qed.

Lemma C3_cancellation_witness :
  let s := fst (wsHandler (healthy twoLines) logRequest [EvTick None; EvCtxDone]) in
  let t := snd (wsHandler (healthy twoLines) logRequest [EvTick None; EvCtxDone]) in
  conn s = websocket.Closed /\ count isConnClose t = 1.
Proof.
  exact (proj1 (proj2
    (C3_cancellation_and_release (healthy twoLines) logRequest
       [EvTick None; EvCtxDone] "/var/log/uwsgi/uwsgi.log" eq_refl eq_refl))
    eq_refl).
Defined.

(** C7: in a session (the upgrade has succeeded), when [Lines] is reported
    closed the handler returns at once: if it was in the loop it logs the
    cause and runs its deferred calls, without attempting a write; the
    connection is then closed, [conn.Close] having run exactly once.  No
    frame is written from then on: whatever happens afterwards, the frames
    of the whole run are those written before the closure, and what is left
    of the session attempts at most one write, the heartbeat's, which
    fails. *)
Theorem C7_lines_closed_ends_session :
  forall env r es1 es2 p,
    logFilePathOf r = Some p ->
    upgradeErr env = None ->
    let s1 := fst (wsHandler env r es1) in
    let s := fst (wsHandler env r (es1 ++ [EvLinesClosed])) in
    let t := snd (wsHandler env r (es1 ++ [EvLinesClosed])) in
    main s = Returned /\ conn s = websocket.Closed /\
    count isConnClose t = 1 /\
    (main s1 = Streaming ->
       t = snd (wsHandler env r es1) ++
           [ELog (closedMsg (path s1)); ETailCleanup; EConnClose]) /\
    frames (snd (wsHandler env r (es1 ++ EvLinesClosed :: es2))) =
      frames (snd (wsHandler env r es1)) /\
    count isWrite (snd (run s es2)) <= 1 /\
    frames (snd (run s es2)) = [].
Proof.
  intros env r es1 es2 p Hp Hu s1 s t. subst s1 s t.
  destruct (upgraded_session env r (es1 ++ [EvLinesClosed]) p Hp Hu)
    as (_ & H2 & H3).
  pose proof (wsHandler_inv env r (es1 ++ [EvLinesClosed])) as Hi.
  pose proof (wsHandler_inv env r es1) as Hi1.
  assert (E : wsHandler env r (es1 ++ [EvLinesClosed]) =
              (fst (step (fst (wsHandler env r es1)) EvLinesClosed),
               snd (wsHandler env r es1) ++
               snd (step (fst (wsHandler env r es1)) EvLinesClosed))).
  { unfold wsHandler. destruct (start env r) as [s0 t0].
    rewrite (run_app s0 es1 [EvLinesClosed]), run_cons.
    destruct (run s0 es1) as [sa ta]; cbn [fst snd run].
    rewrite app_nil_r, app_assoc. reflexivity. }
  assert (F : frames (snd (wsHandler env r (es1 ++ EvLinesClosed :: es2))) =
              frames (snd (wsHandler env r es1))).
  { unfold wsHandler in *. destruct (start env r) as [s0 t0].
    rewrite (run_app s0 es1 (EvLinesClosed :: es2)), run_cons.
    destruct (run s0 es1) as [sa ta]; cbn [fst snd] in *.
    destruct (closing_step sa EvLinesClosed Hi1 I) as [Hr Hf].
    destruct (returned_run es2 _ Hr) as [_ Hf2].
    rewrite !frames_app, Hf, Hf2, !app_nil_r. reflexivity. }
  destruct (closing_step (fst (wsHandler env r es1)) EvLinesClosed Hi1 I)
    as [Hr _].
  rewrite E in *. cbn [fst snd] in *.
  pose proof Hr as (A & _ & C & _).
  assert (Ec : conn (fst (step (fst (wsHandler env r es1)) EvLinesClosed)) =
               websocket.Closed).
  { destruct (conn (fst (step (fst (wsHandler env r es1)) EvLinesClosed)));
      congruence. }
  split; [exact A|]. split; [exact Ec|].
  split; [rewrite H3, Ec; reflexivity|].
  split.
  { intro Hm. destruct Hi1 as [Hs|(A1 & _)]; [|congruence].
    simpl. rewrite Hm, (ret_streaming _ Hs). reflexivity. }
  split; [exact F|].
  split; [|apply returned_run; exact Hr].
  pose proof (returned_writes es2 _ Hr) as W.
  destruct (hb (fst (step (fst (wsHandler env r es1)) EvLinesClosed))); lia.
Qed.

Lemma C7_lines_closed_witness :
  let s := fst (wsHandler (healthy twoLines) logRequest
                  ([EvTick None] ++ [EvLinesClosed])) in
  let t := snd (wsHandler (healthy twoLines) logRequest
                  ([EvTick None] ++ [EvLinesClosed])) in
  main s = Returned /\ conn s = websocket.Closed /\ count isConnClose t = 1.
Proof.
  pose proof (C7_lines_closed_ends_session (healthy twoLines) logRequest
                [EvTick None] [EvTick None] "/var/log/uwsgi/uwsgi.log"
                eq_refl eq_refl) as (H1 & H2 & H3 & _).
  exact (conj H1 (conj H2 H3)).
Defined.

(** ** A file written in whole lines *)

Lemma splitLines_concat (s : string) :
  forall cur,
    String.append
      (String.concat "" (map lineFrame (fst (tailer.splitLines s cur))))
      (snd (tailer.splitLines s cur))
    = String.append cur s.
Proof.
  induction s as [|c s IH]; intro cur.
  - simpl. now rewrite string_app_nil_r.
  - cbn [tailer.splitLines].
    destruct (Ascii.eqb_spec c (ascii_of_nat 10)) as [E|N].
    + specialize (IH "").
      destruct (tailer.splitLines s "") as [ls rest]. cbn [fst snd] in *.
      cbn [map]. rewrite concat_cons. unfold lineFrame at 1, nl.
      rewrite <- !string_app_assoc, IH. subst c. reflexivity.
    + rewrite IH. rewrite <- string_app_assoc. reflexivity.
Qed.

Lemma readLines_whole (a : string) :
  wholeLines a ->
  String.concat "" (map lineFrame (tailer.readLines a)) = a.
Proof.
  unfold wholeLines, tailer.readLines. intro H.
  pose proof (splitLines_concat a "") as E.
  destruct (tailer.splitLines a "") as [ls rest]. cbn [fst snd] in *.
  subst rest. rewrite string_app_nil_r in E. exact E.
Qed.

Lemma concat_app (xs ys : list string) :
  String.concat "" (xs ++ ys) =
  String.append (String.concat "" xs) (String.concat "" ys).
Proof.
  induction xs as [|x xs IH]; [reflexivity|].
  change ((x :: xs) ++ ys) with (x :: (xs ++ ys)).
  rewrite !concat_cons, IH, string_app_assoc. reflexivity.
Qed.

Lemma length_append (c a : string) :
  String.length (String.append c a) = String.length c + String.length a.
Proof. induction c as [|x c IH]; simpl; [reflexivity|now rewrite IH]. Qed.

Lemma dropBytes_append (c a : string) :
  tailer.dropBytes (String.length c) (String.append c a) = a.
Proof.
  unfold tailer.dropBytes. rewrite length_append.
  replace (String.length c + String.length a - String.length c)
    with (String.length a) by lia.
  induction c as [|x c IH]; simpl.
  - induction a as [|y a IHa]; simpl; [reflexivity|now rewrite IHa].
  - exact IH.
Qed.

(** A tailer that has read its file to the end delivers, for texts
    appended one after the other, the lines of each text in turn. *)
Lemma reacts_appends (appends : list string) :
  forall t,
    tailer.closed t = false ->
    tailer.pos t = String.length (contentOf (tailer.file t)) ->
    snd (tailer.reacts t (map tailer.Append appends)) =
    tailer.lines (flat_map tailer.readLines appends).
Proof.
  induction appends as [|a appends IH]; intros t Hc Hp; [reflexivity|].
  cbn [map tailer.reacts flat_map].
  assert (E : tailer.react t (tailer.Append a) =
              ({| tailer.cfg := tailer.cfg t;
                  tailer.file := Some (String.append (contentOf (tailer.file t)) a);
                  tailer.pos := String.length
                                  (String.append (contentOf (tailer.file t)) a);
                  tailer.closed := false |},
               tailer.lines (tailer.readLines a))).
  { unfold tailer.react. rewrite Hc.
    assert (F : tailer.fsApply (tailer.file t) (tailer.Append a) =
                Some (String.append (contentOf (tailer.file t)) a))
      by (destruct (tailer.file t); reflexivity).
    rewrite F. unfold tailer.drain, tailer.readFrom.
    rewrite Hp, dropBytes_append. reflexivity. }
  rewrite E.
  specialize (IH _ (eq_refl : tailer.closed
                     {| tailer.cfg := tailer.cfg t;
                        tailer.file := Some (String.append (contentOf (tailer.file t)) a);
                        tailer.pos := String.length
                                        (String.append (contentOf (tailer.file t)) a);
                        tailer.closed := false |} = false) eq_refl).
  destruct (tailer.reacts _ (map tailer.Append appends)) as [t2 o2].
  cbn [snd] in *. rewrite IH. unfold tailer.lines. now rewrite map_app.
Qed.

(** X12: a log file that appears after the client has connected and grows
    by whole lines reaches the client byte for byte: the handler gives each
    line back the one newline the tailer, as modelled, took off, so the text
    frames of the session, concatenated, are the texts appended to the file,
    in order. *)
Theorem X12_whole_lines_arrive_unchanged :
  forall appends,
    Forall wholeLines appends ->
    textFrames (snd (serve logRequest None (map tailer.Append appends))) =
      map lineFrame (flat_map tailer.readLines appends) /\
    String.concat ""
      (textFrames (snd (serve logRequest None (map tailer.Append appends)))) =
    String.concat "" appends.
Proof.
  intros appends Hw.
  assert (E : textFrames
                (snd (serve logRequest None (map tailer.Append appends))) =
              map lineFrame (flat_map tailer.readLines appends)).
  { unfold serve, serveWith.
    cbn [tailer.openErr ReadFile tailer.TailFile tailer.drain tail.Follow
         tailConfig fst snd app].
    match goal with
    | |- context [startWith tailConfig ?e logRequest] =>
        assert (S0 : startWith tailConfig e logRequest =
                     (liveSession, snd (startWith tailConfig e logRequest)))
          by reflexivity;
        assert (T0 : textFrames (snd (startWith tailConfig e logRequest)) = [])
          by reflexivity;
        rewrite S0
    end.
    pose proof (reacts_appends appends
                  {| tailer.cfg := tailConfig; tailer.file := None;
                     tailer.pos := 0; tailer.closed := false |}
                  eq_refl eq_refl) as R.
    destruct (tailer.reacts _ (map tailer.Append appends)) as [t1 o1].
    cbn [snd] in R. subst o1.
    rewrite (run_text_lines liveSession _ liveSession_streaming).
    cbn [snd]. rewrite textFrames_app, T0, textFrames_writes. reflexivity. }
  split; [exact E|]. rewrite E. clear E.
  induction Hw as [|a appends Ha _ IH]; [reflexivity|].
  cbn [flat_map]. rewrite map_app, concat_app, IH, concat_cons.
  now rewrite (readLines_whole a Ha).
Qed.

Lemma X12_whole_lines_witness :
  String.concat ""
    (textFrames (snd (serve logRequest None
                        (map tailer.Append [twoLines; thirdLine])))) =
  String.concat "" [twoLines; thirdLine].
Proof.
  refine (proj2 (X12_whole_lines_arrive_unchanged [twoLines; thirdLine] _)).
  repeat constructor.
Defined.
